(** * The estimate handler of app/api/estimate/route.ts

    A shallow embedding of the [POST] handler: the JavaScript values it
    manipulates (numbers are binary64 floats, JSON data, the values a property
    read can produce), the coercions it applies to them, the form data of the
    request, the one call to the inference endpoint, and the pricing
    arithmetic.  The properties of the handler are stated and proved at the
    end of the file. *)

From Stdlib Require Import ZArith Floats String Ascii List Bool.
Import ListNotations.

Set Warnings "-inexact-float,-register-all".

Open Scope list_scope.
Open Scope string_scope.

(** ** Numbers

    A JavaScript number is an IEEE 754 binary64 value: the kernel's [float].
    [*] and [/] are [PrimFloat.mul] and [PrimFloat.div]. *)

Module Num.

(** [Math.max(a, b)]: NaN when an argument is NaN, and +0 is larger than -0. *)
Definition Math_max (a b : float) : float :=
  if (is_nan a || is_nan b)%bool then nan
  else if (a <? b)%float then b
  else if (b <? a)%float then a
  else if get_sign a then b else a.

(** [Math.min(a, b)]: NaN when an argument is NaN, and -0 is smaller than +0. *)
Definition Math_min (a b : float) : float :=
  if (is_nan a || is_nan b)%bool then nan
  else if (a <? b)%float then a
  else if (b <? a)%float then b
  else if get_sign a then a else b.

(** [Math.round(x)]: the integer nearest to [x], a tie going up; NaN, the
    infinities, the zeros and the integers are returned as they are, and a
    result of zero keeps the sign of [x].  For [x = (-1)^s * m * 2^e] with
    [e < 0] the result is [floor ((2 x + 1) / 2)], computed on integers. *)
Definition Math_round (x : float) : float :=
  match Prim2SF x with
  | S754_finite s m e =>
      if (0 <=? e)%Z then x
      else
        let k := (- e)%Z in
        let n := if s then Z.neg m else Z.pos m in
        match Z.shiftr (2 * n + 2 ^ k) (k + 1) with
        | Z0 => if s then (-0)%float else 0%float
        | Z.pos p => SF2Prim (S754_finite false p 0)
        | Z.neg p => SF2Prim (S754_finite true p 0)
        end
  | _ => x
  end.

(** The length of an array as a number. *)
Definition of_nat (n : nat) : float :=
  PrimFloat.of_uint63 (Uint63.of_Z (Z.of_nat n)).

(** A number JSON can write: neither NaN nor an infinity. *)
Definition is_finite (x : float) : bool :=
  negb (is_nan x || is_infinity x).

(** [lo <= x <= hi]; false when [x] is NaN. *)
Definition between (lo hi x : float) : bool :=
  ((lo <=? x)%float && (x <=? hi)%float)%bool.

End Num.

(** ** Values *)

(** JSON data: what [Response.json()] and [JSON.parse] produce.  An object
    is the list of its own properties, each name once. *)
Inductive Json : Type :=
| JNull
| JBool (b : bool)
| JNum (x : float)
| JStr (s : string)
| JArr (items : list Json)
| JObj (props : list (string * Json)).

(** The values the handler holds: JSON data, [undefined] (a property that is
    not there), and what a property read finds on [Object.prototype]: one of
    its built-in functions, or, under [__proto__], the prototype itself. *)
Inductive JsVal : Type :=
| VUndefined
| VJson (j : Json)
| VFunction (name : string)
| VObjectPrototype.

Definition VNum (x : float) : JsVal := VJson (JNum x).
Definition VStr (s : string) : JsVal := VJson (JStr s).

(** A thrown [Error]: its constructor's name and its [message]. *)
Record Exn : Type := mkExn { exn_name : string; message : string }.

Definition TypeError (msg : string) : Exn := mkExn "TypeError" msg.

(** The result of an expression that may throw. *)
Inductive Result (A : Type) : Type :=
| Ok (a : A)
| Err (e : Exn).
Arguments Ok {A} a.
Arguments Err {A} e.

Definition rbind {A B : Type} (r : Result A) (k : A -> Result B) : Result B :=
  match r with
  | Ok a => k a
  | Err e => Err e
  end.

(** The double quote character, for the texts that contain it. *)
Definition dq : string := String (ascii_of_nat 34) EmptyString.

(** ** Truthiness, property reads *)

(** [!!v]: [undefined], [null], [false], the zeros, NaN and the empty string
    are falsy; every object (arrays and functions too) is truthy. *)
Definition truthy (v : JsVal) : bool :=
  match v with
  | VUndefined => false
  | VJson JNull => false
  | VJson (JBool b) => b
  | VJson (JNum x) => negb (is_zero x || is_nan x)
  | VJson (JStr s) => negb (s =? "")
  | VJson (JArr _) => true
  | VJson (JObj _) => true
  | VFunction _ => true
  | VObjectPrototype => true
  end.

(** [a || b] *)
Definition js_or (a b : JsVal) : JsVal := if truthy a then a else b.

Definition nullish (v : JsVal) : bool :=
  match v with
  | VUndefined | VJson JNull => true
  | _ => false
  end.

(** The first property called [key] among the own properties [props]. *)
Fixpoint own_property {A : Type} (props : list (string * A)) (key : string) : option A :=
  match props with
  | [] => None
  | (k, v) :: rest => if k =? key then Some v else own_property rest key
  end.

Definition has_own {A : Type} (props : list (string * A)) (key : string) : bool :=
  match own_property props key with
  | Some _ => true
  | None => false
  end.

(** The names every ordinary object inherits from [Object.prototype]. *)
Definition Object_prototype_methods : list string :=
  [ "constructor"; "hasOwnProperty"; "isPrototypeOf"; "propertyIsEnumerable";
    "toLocaleString"; "toString"; "valueOf";
    "__defineGetter__"; "__defineSetter__"; "__lookupGetter__"; "__lookupSetter__" ].

(** A read of [key] that reaches [Object.prototype]: a built-in function
    under a method's name ([constructor] is the function [Object]), the
    prototype itself under [__proto__], and [undefined] under any other name. *)
Definition Object_prototype_get (key : string) : JsVal :=
  if key =? "__proto__" then VObjectPrototype
  else if key =? "constructor" then VFunction "Object"
  else if existsb (String.eqb key) Object_prototype_methods then VFunction key
  else VUndefined.

(** [o[key]] on an ordinary object with the own properties [props]: the own
    property when there is one, what the prototype has otherwise. *)
Definition object_get {A : Type} (inj : A -> JsVal) (props : list (string * A))
    (key : string) : JsVal :=
  match own_property props key with
  | Some v => inj v
  | None => Object_prototype_get key
  end.

(** [v[key]] on the values of the handler.  Reading from [undefined] or
    [null] throws.  An array has its elements and its [length], a string its
    characters (one [ascii] each) and its [length].  The names that
    [Array.prototype],
    [String.prototype], [Number.prototype], [Boolean.prototype] and
    [Function.prototype] define are left out: on values of these kinds the
    handler reads only [choices], [0], [message], [content], [area_sqft],
    [complexity] and [notes], which none of them defines. *)
Definition js_get (v : JsVal) (key : string) : Result JsVal :=
  match v with
  | VUndefined =>
      Err (TypeError ("Cannot read properties of undefined (reading '" ++ key ++ "')"))
  | VJson JNull =>
      Err (TypeError ("Cannot read properties of null (reading '" ++ key ++ "')"))
  | VJson (JObj props) => Ok (object_get VJson props key)
  | VJson (JArr items) =>
      if key =? "0" then
        Ok (match items with
            | [] => VUndefined
            | x :: _ => VJson x
            end)
      else if key =? "length" then Ok (VNum (Num.of_nat (List.length items)))
      else Ok VUndefined
  | VJson (JStr s) =>
      if key =? "0" then
        Ok (match s with
            | EmptyString => VUndefined
            | String c _ => VStr (String c EmptyString)
            end)
      else if key =? "length" then Ok (VNum (Num.of_nat (String.length s)))
      else Ok VUndefined
  | VJson (JBool _) => Ok VUndefined
  | VJson (JNum _) => Ok VUndefined
  | VFunction _ => Ok VUndefined
  | VObjectPrototype =>
      if key =? "__proto__" then Ok (VJson JNull) else Ok (Object_prototype_get key)
  end.

(** [v?.[key]]: [undefined] without a read when [v] is [undefined] or [null]. *)
Definition opt_get (v : JsVal) (key : string) : Result JsVal :=
  if nullish v then Ok VUndefined else js_get v key.

(** ** The request, the environment and the inference endpoint *)

(** An uploaded file: [File.name], [File.type] and the bytes that
    [arrayBuffer()] resolves to. *)
Record File : Type := mkFile {
  file_name : string;
  file_type : string;
  file_bytes : list Byte.byte
}.

(** A form field holds a text or a file ([FormDataEntryValue]). *)
Inductive FormDataEntryValue : Type :=
| EntryString (s : string)
| EntryFile (f : File).

(** The form data: its fields in the order they were sent. *)
Definition FormData : Type := list (string * FormDataEntryValue).

(** [formData.get(name)]: the first field called [name]; [None] is [null]. *)
Definition FormData_get (fd : FormData) (name : string) : option FormDataEntryValue :=
  own_property fd name.

(** [formData.getAll(name)]: every field called [name], in order. *)
Fixpoint FormData_getAll (fd : FormData) (name : string) : list FormDataEntryValue :=
  match fd with
  | [] => []
  | (k, v) :: rest =>
      if k =? name then v :: FormData_getAll rest name else FormData_getAll rest name
  end.

(** The request: [req.formData()] resolves to the form data, or rejects when
    the body is not a form. *)
Record NextRequest : Type := mkRequest { formData : Result FormData }.

(** [process.env]: the one variable the handler reads. *)
Record ProcessEnv : Type := mkEnv { OPENAI_API_KEY : option string }.

(** What the handler hands to [fetch]; [body] is the object whose JSON text
    is sent. *)
Record FetchRequest : Type := mkFetch {
  url : string;
  method : string;
  headers : list (string * string);
  body : Json
}.

(** The endpoint's response: [r.ok] and what [r.json()] settles to. *)
Record FetchResponse : Type := mkFetchResponse { ok : bool; json : Result Json }.

(** What [fetch] settles to: a response, or a rejection (no connection). *)
Definition FetchOutcome : Type := Result FetchResponse.

(** ** The response *)

(** The object of a successful response. *)
Record Estimate : Type := mkEstimate {
  service : string;
  area_sqft : JsVal;
  complexity : float;
  rate : JsVal;
  complexity_factor : float;
  total : float;
  notes : string;
  images_analyzed : nat;
  estimation_method : string
}.

(** The object handed to [NextResponse.json]. *)
Inductive Body : Type :=
| ErrorBody (error : string)
| EstimateBody (e : Estimate).

Record Response : Type := mkResponse { status : Z; content : Body }.

(** [NextResponse.json(body, { status })]; the status is 200 when none is given. *)
Definition NextResponse_json (b : Body) (st : option Z) : Response :=
  mkResponse (match st with Some n => n | None => 200%Z end) b.

(** What [JSON.stringify] writes for a number: [null] for NaN and the
    infinities, [0] for both zeros. *)
Definition wire_number (x : float) : Json :=
  if Num.is_finite x then (if is_zero x then JNum 0 else JNum x) else JNull.

(** What [JSON.stringify] writes for the value of a property: nothing for
    [undefined] and for a function (the property is left out), [{}] for
    [Object.prototype], which has no enumerable property. *)
Fixpoint wire_json (j : Json) : Json :=
  match j with
  | JNull => JNull
  | JBool b => JBool b
  | JNum x => wire_number x
  | JStr s => JStr s
  | JArr items => JArr (map wire_json items)
  | JObj props => JObj (map (fun kv => (fst kv, wire_json (snd kv))) props)
  end.

Definition wire_property (key : string) (v : JsVal) : list (string * Json) :=
  match v with
  | VUndefined => []
  | VFunction _ => []
  | VObjectPrototype => [(key, JObj [])]
  | VJson j => [(key, wire_json j)]
  end.

(** The JSON document a client reads from the response. *)
Definition wire (b : Body) : Json :=
  match b with
  | ErrorBody msg => JObj [("error", JStr msg)]
  | EstimateBody e =>
      JObj ([("service", JStr (service e))]
            ++ wire_property "area_sqft" (area_sqft e)
            ++ [("complexity", wire_number (complexity e))]
            ++ wire_property "rate" (rate e)
            ++ [("complexity_factor", wire_number (complexity_factor e));
                ("total", wire_number (total e));
                ("notes", JStr (notes e));
                ("images_analyzed", JNum (Num.of_nat (images_analyzed e)));
                ("estimation_method", JStr (estimation_method e))])%list
  end.

(** The property [key] of that document. *)
Definition wire_field (b : Body) (key : string) : option Json :=
  match wire b with
  | JObj props => own_property props key
  | _ => None
  end.

(** ** Base64

    [Buffer.from(bytes).toString("base64")]: three bytes give four digits,
    and a last group of one or two bytes is padded with [=]. *)

Definition base64_alphabet : list ascii :=
  list_ascii_of_string
    "ABCDEFGHIJKLMNOPQRSTUVWXYZabcdefghijklmnopqrstuvwxyz0123456789+/".

Definition base64_digit (n : N) : string :=
  String (nth (N.to_nat n) base64_alphabet "="%char) EmptyString.

Fixpoint base64 (bytes : list Byte.byte) : string :=
  match bytes with
  | [] => ""
  | [a] =>
      let a := Byte.to_N a in
      base64_digit (a / 4) ++ base64_digit (a mod 4 * 16) ++ "=="
  | [a; b] =>
      let a := Byte.to_N a in
      let b := Byte.to_N b in
      base64_digit (a / 4) ++ base64_digit (a mod 4 * 16 + b / 16)
      ++ base64_digit (b mod 16 * 4) ++ "="
  | a :: b :: c :: rest =>
      let a := Byte.to_N a in
      let b := Byte.to_N b in
      let c := Byte.to_N c in
      base64_digit (a / 4) ++ base64_digit (a mod 4 * 16 + b / 16)
      ++ base64_digit (b mod 16 * 4 + c / 64) ++ base64_digit (c mod 64)
      ++ base64 rest
  end%N.

(** ** The handler's effects

    The handler calls [fetch] and writes to the console; a computation of the
    handler takes the effects made so far and gives its result, a value or a
    thrown exception, with the effects made until then. *)

Record Effects : Type := mkEffects {
  fetched : list FetchRequest;
  logged : list string
}.

Definition no_effects : Effects := mkEffects [] [].

Definition Handler (A : Type) : Type := Effects -> Result A * Effects.

Definition ret {A : Type} (a : A) : Handler A := fun w => (Ok a, w).

Definition bind {A B : Type} (m : Handler A) (k : A -> Handler B) : Handler B :=
  fun w =>
    match m w with
    | (Ok a, w') => k a w'
    | (Err e, w') => (Err e, w')
    end.

(** [await p] for a promise that has settled to [r], and any expression that
    may throw. *)
Definition await {A : Type} (r : Result A) : Handler A := fun w => (r, w).

Definition console_log (line : string) : Handler unit :=
  fun w => (Ok tt, mkEffects (fetched w) (logged w ++ [line])%list).

(** [fetch(...)]: the call is made, and settles to [outcome]. *)
Definition fetch (outcome : FetchOutcome) (rq : FetchRequest) : Handler FetchResponse :=
  fun w => (outcome, mkEffects (fetched w ++ [rq])%list (logged w)).

Declare Scope handler_scope.
Delimit Scope handler_scope with handler.
Notation "x <- m ;; k" := (bind m (fun x => k))
  (at level 61, m at next level, right associativity) : handler_scope.
Notation "m ;; k" := (bind m (fun _ => k))
  (at level 61, right associativity) : handler_scope.

Definition nl : string := String (ascii_of_nat 10) EmptyString.

(** ** What the handler takes from outside *)

(** Three conversions built into the runtime: [Number::toString],
    [StringToNumber] (the number a text denotes, NaN when it denotes none)
    and [JSON.parse] ([None] when it throws a [SyntaxError]). *)
Class Runtime : Type := {
  NumberToString : float -> string;
  StringToNumber : string -> float;
  JSON_parse : string -> option Json
}.

(** The exports of [@/lib/pricing], which is not among the sources.  The
    rate table [SERVICE_RATES_PER_SQFT] is an ordinary object from service
    tags to numbers, given by its own properties: like every ordinary object
    it inherits from [Object.prototype].  [MIN_JOB_FEE] is a number and
    [COMPLEXITY_MULTIPLIER] a function from numbers to numbers. *)
Class Pricing : Type := {
  SERVICE_RATES_PER_SQFT : list (string * float);
  MIN_JOB_FEE : float;
  COMPLEXITY_MULTIPLIER : float -> float
}.

Section Estimator.

Context {runtime : Runtime} {pricing : Pricing}.

(** *** Coercions *)

Definition cannot_convert : Exn := TypeError "Cannot convert object to primitive value".

(** [String(j)] on JSON data.  An array joins its elements with commas, a
    [null] element giving the empty text.  An object gives
    ["[object Object]"] through the [toString] it inherits; when it has an
    own property [toString], which is data and cannot be called, no method
    gives a primitive and the conversion throws. *)
Fixpoint ToString_json (j : Json) : Result string :=
  match j with
  | JNull => Ok "null"
  | JBool b => Ok (if b then "true" else "false")
  | JNum x => Ok (NumberToString x)
  | JStr s => Ok s
  | JArr items =>
      (fix join (l : list Json) : Result string :=
         match l with
         | [] => Ok ""
         | x :: rest =>
             rbind (match x with JNull => Ok "" | _ => ToString_json x end) (fun s =>
             match rest with
             | [] => Ok s
             | _ :: _ => rbind (join rest) (fun t => Ok (s ++ "," ++ t))
             end)
         end) items
  | JObj props =>
      if has_own props "toString" then Err cannot_convert else Ok "[object Object]"
  end.

(** [String(v)] *)
Definition js_String (v : JsVal) : Result string :=
  match v with
  | VUndefined => Ok "undefined"
  | VJson j => ToString_json j
  | VFunction name => Ok ("function " ++ name ++ "() { [native code] }")
  | VObjectPrototype => Ok "[object Object]"
  end.

(** [Number(j)] on JSON data.  An array is converted through its text; an
    object gives NaN through the text ["[object Object]"], and throws as
    [String] does when it has an own property [toString]. *)
Definition ToNumber_json (j : Json) : Result float :=
  match j with
  | JNull => Ok 0%float
  | JBool b => Ok (if b then 1%float else 0%float)
  | JNum x => Ok x
  | JStr s => Ok (StringToNumber s)
  | JArr _ => rbind (ToString_json j) (fun s => Ok (StringToNumber s))
  | JObj props => if has_own props "toString" then Err cannot_convert else Ok nan
  end.

(** [Number(v)] *)
Definition js_Number (v : JsVal) : Result float :=
  match v with
  | VUndefined => Ok nan
  | VJson j => ToNumber_json j
  | VFunction _ => Ok nan
  | VObjectPrototype => Ok nan
  end.

(** [JSON.parse(v)]: the argument is converted to a text first. *)
Definition js_JSON_parse (v : JsVal) : Result Json :=
  rbind (js_String v) (fun s =>
  match JSON_parse s with
  | Some j => Ok j
  | None => Err (mkExn "SyntaxError" "Unexpected token in JSON")
  end).

(** *** The handler, step by step *)

(** [String(formData.get("service") || "house")]: a missing field is
    [null] and an empty text is falsy, a file is truthy and has the text
    ["[object File]"]. *)
Definition service_of (fd : FormData) : string :=
  match FormData_get fd "service" with
  | None => "house"
  | Some (EntryString s) => if s =? "" then "house" else s
  | Some (EntryFile _) => "[object File]"
  end.

(** The loop over [images]: each file becomes a data URL with its type, or
    ["image/jpeg"] when it has none; a field that is a text has no
    [arrayBuffer] method, and the call throws (the loop stops there). *)
Fixpoint dataUrls_of (images : list FormDataEntryValue) : Result (list string) :=
  match images with
  | [] => Ok []
  | EntryString _ :: _ => Err (TypeError "f.arrayBuffer is not a function")
  | EntryFile f :: rest =>
      let base64 := base64 (file_bytes f) in
      let mime := if file_type f =? "" then "image/jpeg" else file_type f in
      rbind (dataUrls_of rest) (fun urls =>
      Ok (("data:" ++ mime ++ ";base64," ++ base64) :: urls))
  end.

Definition systemPrompt : string :=
  "You are an estimator for an exterior cleaning company in Jonesboro, Arkansas." ++ nl ++
  "Analyze residential/exterior property photos and output a conservative, *numeric* estimate of:" ++ nl ++
  "- VISIBLE exterior surface area in square feet (house siding/windows/roof or concrete depending on service)" ++ nl ++
  "- Complexity score from 1 (very simple) to 5 (very complex). Complexity increases with multiple stories, architectural details, obstructions, steep roof pitch, heavy staining, etc." ++ nl ++
  "Return STRICT JSON like: {" ++ dq ++ "area_sqft" ++ dq ++ ": <number>, "
    ++ dq ++ "complexity" ++ dq ++ ": <number>, "
    ++ dq ++ "notes" ++ dq ++ ": " ++ dq ++ "<short reason>" ++ dq ++ "}." ++ nl ++
  "If the scene is not a property exterior, use best judgment from visible context.".

Definition userPrompt (service : string) : string :=
  "Service type: " ++ service ++ "." ++ nl ++
  "From ALL provided images, estimate total *cleanable* area in square feet visible (do not overestimate) and a complexity 1-5." ++ nl ++
  "Keep JSON short. Do not include anything else.".

Definition messages (service : string) (dataUrls : list string) : Json :=
  JArr
    [ JObj [("role", JStr "system"); ("content", JStr systemPrompt)];
      JObj [("role", JStr "user");
            ("content",
             JArr (JObj [("type", JStr "text"); ("text", JStr (userPrompt service))]
                   :: map (fun u => JObj [("type", JStr "input_image"); ("image_url", JStr u)])
                          dataUrls))] ].

Definition request_of (key service : string) (dataUrls : list string) : FetchRequest :=
  mkFetch "https://api.openai.com/v1/chat/completions" "POST"
    [("Content-Type", "application/json"); ("Authorization", "Bearer " ++ key)]
    (JObj [("model", JStr "gpt-4o-mini");
           ("messages", messages service dataUrls);
           ("temperature", JNum 0.2);
           ("response_format", JObj [("type", JStr "json_object")])]).

(** What the two branches of the handler assign. *)
Record Inference : Type := mkInference {
  inf_area_sqft : JsVal;
  inf_complexity : float;
  inf_notes : string;
  inf_method : string
}.

(** The object literal of the fallback. *)
Definition baseAreaByService : list (string * float) :=
  [ ("house", 1500); ("windows", 800); ("roof", 1200);
    ("driveway", 400); ("gutters", 200) ]%float.

(** The branch [!r.ok]. *)
Definition smart_estimate (service : string) : Inference :=
  mkInference
    (js_or (object_get VNum baseAreaByService service) (VNum 1000))
    2.5
    "Smart Estimator used - AI analysis temporarily unavailable. Estimate based on typical property size for this service type."
    "smart".

(** [out.choices?.[0]?.message?.content] *)
Definition message_content (out : JsVal) : Result JsVal :=
  rbind (js_get out "choices") (fun choices =>
  rbind (opt_get choices "0") (fun first =>
  rbind (opt_get first "message") (fun msg =>
  opt_get msg "content"))).

(** [try { parsed = JSON.parse(content); } catch { parsed = {}; }] *)
Definition parse_or_empty (content : JsVal) : Json :=
  match js_JSON_parse content with
  | Ok j => j
  | Err _ => JObj []
  end.

Definition default_notes : string := "AI-computed from uploaded photos.".

(** The branch [r.ok], from the JSON document of the response. *)
Definition ai_estimate (out : Json) : Result Inference :=
  rbind (message_content (VJson out)) (fun c =>
  let content := js_or c (VStr "{}") in
  let parsed := VJson (parse_or_empty content) in
  rbind (js_get parsed "area_sqft") (fun parsed_area =>
  rbind (js_Number (js_or parsed_area (VNum 0))) (fun a =>
  let area_sqft := Num.Math_max 0 a in
  rbind (js_get parsed "complexity") (fun parsed_complexity =>
  rbind (js_Number (js_or parsed_complexity (VNum 2.5))) (fun c =>
  let complexity := Num.Math_min 5 (Num.Math_max 1 c) in
  rbind (js_get parsed "notes") (fun parsed_notes =>
  rbind (js_String (js_or parsed_notes (VStr default_notes))) (fun notes =>
  Ok (mkInference (VNum area_sqft) complexity notes "ai")))))))).

(** [SERVICE_RATES_PER_SQFT[service] ?? 0.15]: the read follows the
    prototype chain, and [??] gives the default for [undefined] and [null]
    only. *)
Definition rate_of (service : string) : JsVal :=
  let entry := object_get VNum SERVICE_RATES_PER_SQFT service in
  if nullish entry then VNum 0.15 else entry.

(** [Math.round(subtotal * 100) / 100] *)
Definition round_cents (subtotal : float) : float :=
  (Num.Math_round (subtotal * 100) / 100)%float.

(** Lines 104-112: the price and the response object, [a] and [x] being
    the numbers that [area_sqft] and [rate] are in the product. *)
Definition priced (service : string) (i : Inference) (n_images : nat) (a x : float)
  : Estimate :=
  let rate := rate_of service in
  let complexity_factor := COMPLEXITY_MULTIPLIER (inf_complexity i) in
  let subtotal := Num.Math_max MIN_JOB_FEE (a * x * complexity_factor)%float in
  let total := round_cents subtotal in
  mkEstimate service (inf_area_sqft i) (inf_complexity i) rate complexity_factor
    total (inf_notes i) n_images (inf_method i).

(** [area_sqft * rate * complexity_factor] converts [area_sqft], then
    [rate], to a number. *)
Definition quote (service : string) (i : Inference) (n_images : nat) : Result Estimate :=
  rbind (js_Number (inf_area_sqft i)) (fun a =>
  rbind (js_Number (rate_of service)) (fun x =>
  Ok (priced service i n_images a x))).

Local Open Scope handler_scope.

(** Lines 25-112, reached once there is an image and the key is set: the
    data URLs, the call, one of the two branches, the price. *)
Definition infer_and_quote (service key : string) (images : list FormDataEntryValue)
    (outcome : FetchOutcome) : Handler Response :=
  dataUrls <- await (dataUrls_of images) ;;
  r <- fetch outcome (request_of key service dataUrls) ;;
  i <- (if negb (ok r) then
          console_log "AI estimation failed, using Smart Estimator fallback" ;;
          ret (smart_estimate service)
        else
          out <- await (json r) ;;
          await (ai_estimate out)) ;;
  e <- await (quote service i (List.length dataUrls)) ;;
  ret (NextResponse_json (EstimateBody e) None).

(** The body of the [try] block. *)
Definition POST_try (req : NextRequest) (env : ProcessEnv) (outcome : FetchOutcome)
  : Handler Response :=
  fd <- await (formData req) ;;
  let service := service_of fd in
  let images := FormData_getAll fd "images" in
  if (List.length images =? 0)%nat then
    ret (NextResponse_json (ErrorBody "No images uploaded") (Some 400%Z))
  else
    match OPENAI_API_KEY env with
    | None | Some EmptyString =>
        ret (NextResponse_json (ErrorBody "Missing OPENAI_API_KEY on server") (Some 500%Z))
    | Some key => infer_and_quote service key images outcome
    end.

(** [e.message || "Unexpected error"] *)
Definition error_text (e : Exn) : string :=
  if message e =? "" then "Unexpected error" else message e.

(** The handler: the [try] block, and the [catch] that turns an exception
    into a response with status 500.  The result is the response and the
    effects of the run. *)
Definition POST (req : NextRequest) (env : ProcessEnv) (outcome : FetchOutcome)
  : Response * Effects :=
  match POST_try req env outcome no_effects with
  | (Ok r, w) => (r, w)
  | (Err e, w) => (NextResponse_json (ErrorBody (error_text e)) (Some 500%Z), w)
  end.

Local Close Scope handler_scope.

(** *** Vocabulary of the properties *)

(** A field of [images] that is a file. *)
Definition is_file (v : FormDataEntryValue) : bool :=
  match v with
  | EntryFile _ => true
  | EntryString _ => false
  end.

(** The request carries a form with at least one field [images], all of
    them files. *)
Definition has_images (req : NextRequest) (fd : FormData) : Prop :=
  formData req = Ok fd /\
  FormData_getAll fd "images" <> [] /\
  forallb is_file (FormData_getAll fd "images") = true.

(** [!OPENAI_API_KEY] is false: the variable is set and not empty. *)
Definition configured (env : ProcessEnv) (key : string) : Prop :=
  OPENAI_API_KEY env = Some key /\ key <> "".

(** [!OPENAI_API_KEY] is true: the variable is unset or empty. *)
Definition unconfigured (env : ProcessEnv) : Prop :=
  OPENAI_API_KEY env = None \/ OPENAI_API_KEY env = Some "".

(** The bytes of a field of [images], when it is a file. *)
Definition entry_bytes (v : FormDataEntryValue) : option (list Byte.byte) :=
  match v with
  | EntryFile f => Some (file_bytes f)
  | EntryString _ => None
  end.

End Estimator.

(** ** A configuration and inputs for the examples *)

Module Sample.

(** Stand-ins for the conversions of the runtime.  They agree with the
    runtime on the arguments the examples reach them with: the texts
    ["high"] and ["unknown"] denote no number, the texts ["{}"], ["null"],
    [quote_text], [vague_complexity] and [vague_area] are the JSON documents
    given here, ["not json"] is no JSON document, and no example converts a
    number to a text. *)

Definition quote_text : string :=
  "{" ++ dq ++ "area_sqft" ++ dq ++ ": 1200, "
      ++ dq ++ "complexity" ++ dq ++ ": 3, "
      ++ dq ++ "notes" ++ dq ++ ": " ++ dq ++ "two stories" ++ dq ++ "}".

Definition vague_complexity : string :=
  "{" ++ dq ++ "area_sqft" ++ dq ++ ": 1200, "
      ++ dq ++ "complexity" ++ dq ++ ": " ++ dq ++ "high" ++ dq ++ ", "
      ++ dq ++ "notes" ++ dq ++ ": " ++ dq ++ "two stories" ++ dq ++ "}".

Definition vague_area : string :=
  "{" ++ dq ++ "area_sqft" ++ dq ++ ": " ++ dq ++ "unknown" ++ dq ++ ", "
      ++ dq ++ "complexity" ++ dq ++ ": 3, "
      ++ dq ++ "notes" ++ dq ++ ": " ++ dq ++ "view blocked" ++ dq ++ "}".

Definition parse (s : string) : option Json :=
  if s =? "{}" then Some (JObj [])
  else if s =? "null" then Some JNull
  else if s =? quote_text then
    Some (JObj [("area_sqft", JNum 1200); ("complexity", JNum 3);
                ("notes", JStr "two stories")])
  else if s =? vague_complexity then
    Some (JObj [("area_sqft", JNum 1200); ("complexity", JStr "high");
                ("notes", JStr "two stories")])
  else if s =? vague_area then
    Some (JObj [("area_sqft", JStr "unknown"); ("complexity", JNum 3);
                ("notes", JStr "view blocked")])
  else None.

Definition runtime : Runtime := {|
  NumberToString := fun _ => "NaN";
  StringToNumber := fun s => if s =? "" then 0%float else nan;
  JSON_parse := parse
|}.

(** A pricing table for the examples. *)
Definition pricing : Pricing := {|
  SERVICE_RATES_PER_SQFT :=
    [ ("house", 0.15); ("windows", 0.5); ("roof", 0.25);
      ("driveway", 0.125); ("gutters", 1) ]%float;
  MIN_JOB_FEE := 99;
  COMPLEXITY_MULTIPLIER := fun c => (1 + (c - 1) * 0.25)%float
|}.

Definition photo : File :=
  mkFile "front.jpg" "image/jpeg" [Byte.xff; Byte.xd8; Byte.xff; Byte.xe0].

(** The same bytes under another name and type. *)
Definition photo_copy : File :=
  mkFile "copy.png" "image/png" [Byte.xff; Byte.xd8; Byte.xff; Byte.xe0].

Definition form (service : string) : FormData :=
  [("service", EntryString service); ("images", EntryFile photo)].

Definition form_copy (service : string) : FormData :=
  [("service", EntryString service); ("images", EntryFile photo_copy)].

Definition form_without_service : FormData := [("images", EntryFile photo)].

Definition form_without_images : FormData := [("service", EntryString "house")].

Definition request (fd : FormData) : NextRequest := mkRequest (Ok fd).

Definition env_with_key : ProcessEnv := mkEnv (Some "sk-test").

Definition env_without_key : ProcessEnv := mkEnv None.

(** The endpoint answers 503. *)
Definition unavailable : FetchOutcome :=
  Ok (mkFetchResponse false
        (Ok (JObj [("error", JObj [("message", JStr "Service unavailable")])]))).

(** No connection: [fetch] rejects. *)
Definition unreachable : FetchOutcome := Err (TypeError "fetch failed").

(** The JSON document of a completion with one message of the given content. *)
Definition envelope (text : Json) : Json :=
  JObj [("choices",
         JArr [JObj [("index", JNum 0);
                     ("message", JObj [("role", JStr "assistant");
                                       ("content", text)])]])].

(** The endpoint answers 200 with that document. *)
Definition answer (text : Json) : FetchOutcome :=
  Ok (mkFetchResponse true (Ok (envelope text))).

(** The handler under this configuration. *)
Definition run : NextRequest -> ProcessEnv -> FetchOutcome -> Response * Effects :=
  @POST runtime pricing.

End Sample.

(** ** More inputs for the examples *)

Module Edge.

(** A quote of the model out of bounds, and one with a complexity 0 and
    nothing else. *)
Definition steep_text : string :=
  "{" ++ dq ++ "area_sqft" ++ dq ++ ": -50, "
      ++ dq ++ "complexity" ++ dq ++ ": 9, "
      ++ dq ++ "notes" ++ dq ++ ": " ++ dq ++ "tower" ++ dq ++ "}".

Definition sparse_text : string :=
  "{" ++ dq ++ "complexity" ++ dq ++ ": 0}".

(** A stand-in for [JSON.parse], right on the texts of these examples. *)
Definition parse (s : string) : option Json :=
  if s =? "{}" then Some (JObj [])
  else if s =? "null" then Some JNull
  else if s =? "7" then Some (JNum 7)
  else if s =? steep_text then
    Some (JObj [("area_sqft", JNum (-50)); ("complexity", JNum 9);
                ("notes", JStr "tower")])
  else if s =? sparse_text then Some (JObj [("complexity", JNum 0)])
  else None.

Definition runtime : Runtime := {|
  NumberToString := fun _ => "NaN";
  StringToNumber := fun s => if s =? "" then 0%float else nan;
  JSON_parse := parse
|}.

(** A form in which the second field [images] is a text. *)
Definition form_with_text : FormData :=
  [("service", EntryString "house"); ("images", EntryFile Sample.photo);
   ("images", EntryString "front.jpg")].

(** A request whose body is no form. *)
Definition no_form : NextRequest :=
  mkRequest
    (Err (TypeError "Content-Type was not one of multipart/form-data or application/x-www-form-urlencoded.")).

(** The endpoint answers 200 with a body that is no JSON document. *)
Definition garbled : FetchOutcome :=
  Ok (mkFetchResponse true
        (Err (mkExn "SyntaxError" "Unexpected token < in JSON at position 0"))).

Definition run : NextRequest -> ProcessEnv -> FetchOutcome -> Response * Effects :=
  @POST runtime Sample.pricing.

End Edge.

(** ** Facts on numbers *)

Module NumFacts.

Import Num.

Local Open Scope float_scope.

Lemma mul_nan_l (x : float) : nan * x = nan.
Proof. apply Prim2SF_inj. rewrite mul_spec. reflexivity. Qed.

Lemma Math_max_nan_r (x : float) : Math_max x nan = nan.
Proof. unfold Math_max. change (is_nan nan) with true. now rewrite orb_true_r. Qed.

(** A comparison of two numbers fails only on NaN. *)
Lemma SFcompare_defined (x y : spec_float) :
  SFcompare x x = Some Eq -> SFcompare y y = Some Eq ->
  exists c, SFcompare x y = Some c.
Proof.
  destruct x, y; simpl; try discriminate; intros _ _; eexists; reflexivity.
Qed.

Lemma SFcompare_antisym (x y : spec_float) (c : comparison) :
  SFcompare x y = Some c -> SFcompare y x = Some (CompOpp c).
Proof.
  destruct x as [sx|sx| |sx mx ex], y as [sy|sy| |sy my ey]; simpl;
    try discriminate; intros [= <-]; f_equal;
    try (destruct sx; reflexivity); try (destruct sy; reflexivity);
    try (destruct sx, sy; reflexivity).
  assert (Hp : Pos.compare_cont Eq my mx = CompOpp (Pos.compare_cont Eq mx my))
    by (symmetry; apply (Pos.compare_cont_antisym mx my Eq)).
  rewrite (Z.compare_antisym ex ey), Hp.
  destruct sx, sy; try reflexivity;
    destruct (ex ?= ey)%Z; simpl; try reflexivity;
    destruct (Pos.compare_cont Eq mx my); reflexivity.
Qed.

Lemma is_nan_false (x : float) :
  is_nan x = false -> SFcompare (Prim2SF x) (Prim2SF x) = Some Eq.
Proof.
  unfold is_nan. rewrite FloatAxioms.eqb_spec. unfold SFeqb.
  destruct (SFcompare (Prim2SF x) (Prim2SF x)) as [[| |]|]; simpl; congruence.
Qed.

Lemma ltb_leb (x y : float) : (x <? y) = true -> (x <=? y) = true.
Proof.
  rewrite ltb_spec, leb_spec. unfold SFltb, SFleb.
  destruct (SFcompare (Prim2SF x) (Prim2SF y)) as [[| |]|]; congruence.
Qed.

(** Of two numbers neither of which is below the other, each is at most the
    other. *)
Lemma not_ltb_leb (x y : float) :
  is_nan x = false -> is_nan y = false ->
  (x <? y) = false -> (y <? x) = false -> (x <=? y) = true.
Proof.
  intros Hx Hy. rewrite !ltb_spec, leb_spec. unfold SFltb, SFleb.
  destruct (SFcompare_defined _ _ (is_nan_false x Hx) (is_nan_false y Hy)) as (c & Hc).
  rewrite (SFcompare_antisym _ _ _ Hc), Hc. destruct c; simpl; congruence.
Qed.

(** [Math.min(5, Math.max(1, c))] is NaN for NaN and lies in [1, 5] for
    every other number. *)
Lemma clamp_nan (c : float) :
  is_nan c = true -> Math_min 5 (Math_max 1 c) = nan.
Proof.
  intros Hc. unfold Math_max at 1. change (is_nan 1) with false. rewrite Hc.
  reflexivity.
Qed.

Lemma clamp_between (c : float) :
  is_nan c = false -> between 1 5 (Math_min 5 (Math_max 1 c)) = true.
Proof.
  intros Hc.
  assert (Hm : exists m, Math_max 1 c = m /\ is_nan m = false /\ (1 <=? m) = true).
  { unfold Math_max. change (is_nan 1) with false. rewrite Hc. cbn [orb].
    destruct (1 <? c) eqn:H1; [exists c; auto using ltb_leb|].
    exists 1. destruct (c <? 1); repeat split; reflexivity. }
  destruct Hm as (m & -> & Hm & H1m).
  unfold Math_min. change (is_nan 5) with false. rewrite Hm. cbn [orb].
  unfold between.
  destruct (5 <? m) eqn:H5; [reflexivity|].
  destruct (m <? 5) eqn:Hm5.
  - now rewrite H1m, (ltb_leb _ _ Hm5).
  - change (get_sign 5) with false. cbv iota.
    now rewrite H1m, (not_ltb_leb m 5 Hm eq_refl Hm5 H5).
Qed.

(** [Math.max(0, a)] is NaN for NaN and at least 0 for every other number. *)
Lemma max0_nan (a : float) : is_nan a = true -> Math_max 0 a = nan.
Proof. intros Ha. unfold Math_max. change (is_nan 0) with false. now rewrite Ha. Qed.

Lemma max0_nonneg (a : float) : is_nan a = false -> (0 <=? Math_max 0 a) = true.
Proof.
  intros Ha. unfold Math_max. change (is_nan 0) with false. rewrite Ha. cbn [orb].
  destruct (0 <? a) eqn:H0; [now apply ltb_leb|].
  destruct (a <? 0); reflexivity.
Qed.

(** [Math.round] at halves and next to them: a tie goes up, towards
    positive infinity; a result of zero keeps the sign; integers, the
    infinities and NaN are returned as they are. *)
Lemma Math_round_ties_up :
  Math_round 2.5 = 3
  /\ Math_round (-2.5) = -2
  /\ Math_round 0.5 = 1
  /\ Math_round 0.49999999999999994 = 0
  /\ Math_round 2.4999999999999996 = 2
  /\ Math_round (-2.5000000000000004) = -3
  /\ Math_round 30937.5 = 30938
  /\ Math_round 26999.999999999996 = 27000
  /\ Math_round 4503599627370497 = 4503599627370497
  /\ Math_round infinity = infinity
  /\ Math_round nan = nan
  /\ Prim2SF (Math_round (-0.25)) = S754_zero true
  /\ Prim2SF (Math_round 0.25) = S754_zero false.
Proof. repeat split; reflexivity. Qed.

End NumFacts.

Section Properties.

Context {runtime : Runtime} {pricing : Pricing}.

(** *** Auxiliary facts *)

Lemma dataUrls_of_files (images : list FormDataEntryValue) :
  forallb is_file images = true ->
  exists urls, dataUrls_of images = Ok urls /\ List.length urls = List.length images.
Proof.
  induction images as [|v rest IH]; simpl; intros H.
  - exists []. split; reflexivity.
  - destruct v as [s|f]; [discriminate|].
    destruct (IH H) as (urls & -> & Hlen).
    eexists. split; [reflexivity|]. simpl. now rewrite Hlen.
Qed.

Lemma length_nonempty {A : Type} (l : list A) :
  l <> [] -> (List.length l =? 0)%nat = false.
Proof. destruct l; [congruence|reflexivity]. Qed.

Lemma POST_try_checked req env outcome fd key :
  formData req = Ok fd ->
  FormData_getAll fd "images" <> [] ->
  configured env key ->
  POST_try req env outcome no_effects
  = infer_and_quote (service_of fd) key (FormData_getAll fd "images") outcome no_effects.
Proof.
  intros Hfd Himg [Hkey Hne].
  unfold POST_try, bind at 1, await at 1. rewrite Hfd.
  rewrite (length_nonempty _ Himg), Hkey.
  destruct key as [|c k]; [congruence|reflexivity].
Qed.

Lemma POST_try_unconfigured req env outcome fd :
  formData req = Ok fd ->
  FormData_getAll fd "images" <> [] ->
  unconfigured env ->
  POST_try req env outcome no_effects
  = (Ok (mkResponse 500 (ErrorBody "Missing OPENAI_API_KEY on server")), no_effects).
Proof.
  intros Hfd Himg Hkey.
  unfold POST_try, bind, await. rewrite Hfd, (length_nonempty _ Himg).
  destruct Hkey as [-> | ->]; reflexivity.
Qed.

(** The area of the fallback is a number, a function or the prototype, and
    [Number] converts each of them without throwing. *)
Lemma smart_area_converts (service : string) :
  exists a, js_Number (inf_area_sqft (smart_estimate service)) = Ok a.
Proof.
  unfold smart_estimate. cbn [inf_area_sqft]. unfold object_get.
  destruct (own_property baseAreaByService service) as [x|].
  - unfold js_or. destruct (truthy (VNum x)); eexists; reflexivity.
  - unfold Object_prototype_get, js_or.
    destruct (service =? "__proto__"); [eexists; reflexivity|].
    destruct (service =? "constructor"); [eexists; reflexivity|].
    destruct (existsb (String.eqb service) Object_prototype_methods);
      eexists; reflexivity.
Qed.

(** The rate is a number, a function or the prototype, and the product
    converts each of them without throwing. *)
Lemma rate_converts (service : string) :
  exists x, js_Number (rate_of service) = Ok x.
Proof.
  unfold rate_of, object_get.
  destruct (own_property SERVICE_RATES_PER_SQFT service) as [x|].
  - eexists; reflexivity.
  - unfold Object_prototype_get.
    destruct (service =? "__proto__"); [eexists; reflexivity|].
    destruct (service =? "constructor"); [eexists; reflexivity|].
    destruct (existsb (String.eqb service) Object_prototype_methods);
      eexists; reflexivity.
Qed.

(** The run of the fallback branch. *)
Lemma infer_and_quote_not_ok service key images outcome r :
  forallb is_file images = true ->
  outcome = Ok r ->
  ok r = false ->
  exists a x urls,
    js_Number (inf_area_sqft (smart_estimate service)) = Ok a /\
    js_Number (rate_of service) = Ok x /\
    infer_and_quote service key images outcome no_effects
    = (Ok (mkResponse 200
             (EstimateBody (priced service (smart_estimate service) (List.length images) a x))),
       mkEffects [request_of key service urls]
                 ["AI estimation failed, using Smart Estimator fallback"]).
Proof.
  intros Hfiles -> Hok.
  destruct (dataUrls_of_files _ Hfiles) as (urls & Hurls & Hlen).
  destruct (smart_area_converts service) as (a & Ha).
  destruct (rate_converts service) as (x & Hx).
  exists a, x, urls. split; [exact Ha|]. split; [exact Hx|].
  unfold infer_and_quote, bind, await, fetch, console_log, ret, quote.
  rewrite Hurls, Hok, Hlen. cbn [negb]. rewrite Ha. cbn [rbind]. rewrite Hx. reflexivity.
Qed.

(** Every run of the handler ends in an error response, with status 400
    or 500, or in a 200 response: then the form was read, the key is set,
    every image gave its data URL, one call was made, one of the two
    branches gave the inference, and the response object is [priced]. *)
Lemma POST_inv req env outcome resp w :
  POST req env outcome = (resp, w) ->
  (exists st msg,
      resp = mkResponse st (ErrorBody msg)
      /\ (st = 400 \/ st = 500)%Z
      /\ (fetched w = []
          \/ exists fd key urls,
               formData req = Ok fd
               /\ fetched w = [request_of key (service_of fd) urls]))
  \/
  (exists fd key urls i a x,
      formData req = Ok fd
      /\ configured env key
      /\ dataUrls_of (FormData_getAll fd "images") = Ok urls
      /\ fetched w = [request_of key (service_of fd) urls]
      /\ ((exists r, outcome = Ok r /\ ok r = false
                     /\ i = smart_estimate (service_of fd))
          \/ (exists r out, outcome = Ok r /\ ok r = true /\ json r = Ok out
                            /\ ai_estimate out = Ok i))
      /\ js_Number (inf_area_sqft i) = Ok a
      /\ js_Number (rate_of (service_of fd)) = Ok x
      /\ resp = mkResponse 200
                  (EstimateBody (priced (service_of fd) i (List.length urls) a x))).
Proof.
  assert (Herr : forall st msg w',
             (st = 400 \/ st = 500)%Z ->
             (fetched w' = []
              \/ exists fd key urls,
                   formData req = Ok fd
                   /\ fetched w' = [request_of key (service_of fd) urls]) ->
             (mkResponse st (ErrorBody msg), w') = (resp, w) ->
             exists st msg,
               resp = mkResponse st (ErrorBody msg)
               /\ (st = 400 \/ st = 500)%Z
               /\ (fetched w = []
                   \/ exists fd key urls,
                        formData req = Ok fd
                        /\ fetched w = [request_of key (service_of fd) urls])).
  { intros st msg w' Hst Hw [= <- <-]. now exists st, msg. }
  unfold POST, POST_try, bind, await.
  destruct (formData req) as [fd|err] eqn:Hfd;
    [|intros H; left; eapply Herr; [| |exact H]; [now right|now left]].
  cbv zeta.
  destruct (List.length (FormData_getAll fd "images") =? 0)%nat eqn:Hlen;
    [intros H; left; eapply Herr; [| |exact H]; now left|].
  destruct (OPENAI_API_KEY env) as [[|c k]|] eqn:Hkey;
    try (intros H; left; eapply Herr; [| |exact H]; [now right|now left]).
  unfold infer_and_quote, bind, await, fetch, console_log, ret.
  destruct (dataUrls_of (FormData_getAll fd "images")) as [urls|err] eqn:Hurls;
    [|intros H; left; eapply Herr; [| |exact H]; [now right|now left]].
  assert (Hcfg : configured env (String c k)) by (split; [assumption|congruence]).
  assert (Hcalled : forall st msg w',
             fetched w' = [request_of (String c k) (service_of fd) urls] ->
             (mkResponse st (ErrorBody msg), w') = (resp, w) ->
             st = 500%Z ->
             exists st msg,
               resp = mkResponse st (ErrorBody msg)
               /\ (st = 400 \/ st = 500)%Z
               /\ (fetched w = []
                   \/ exists fd0 key urls,
                        Ok fd = Ok fd0
                        /\ fetched w = [request_of key (service_of fd0) urls])).
  { intros st msg w' Hw H ->. eapply Herr; [| |exact H]; [now right|].
    right. now exists fd, (String c k), urls. }
  destruct outcome as [r|err];
    [|intros H; left; eapply Hcalled; [|exact H|]; reflexivity].
  destruct (ok r) eqn:Hok; cbn [negb].
  - destruct (json r) as [out|err] eqn:Hjson;
      [|intros H; left; eapply Hcalled; [|exact H|]; reflexivity].
    destruct (ai_estimate out) as [i|err] eqn:Hai;
      [|intros H; left; eapply Hcalled; [|exact H|]; reflexivity].
    unfold quote.
    destruct (js_Number (inf_area_sqft i)) as [a|err] eqn:Ha;
      [|intros H; left; eapply Hcalled; [|exact H|]; reflexivity].
    destruct (rate_converts (service_of fd)) as (x & Hx). cbn [rbind]. rewrite Hx.
    intros [= <- <-]. right. exists fd, (String c k), urls, i, a, x.
    repeat match goal with |- _ /\ _ => split end;
      try assumption; try reflexivity.
    right. exists r, out. now repeat split.
  - unfold quote.
    destruct (js_Number (inf_area_sqft (smart_estimate (service_of fd)))) as [a|err] eqn:Ha;
      [|intros H; left; eapply Hcalled; [|exact H|]; reflexivity].
    destruct (rate_converts (service_of fd)) as (x & Hx). cbn [rbind]. rewrite Hx.
    intros [= <- <-]. right.
    exists fd, (String c k), urls, (smart_estimate (service_of fd)), a, x.
    repeat match goal with |- _ /\ _ => split end;
      try assumption; try reflexivity.
    left. exists r. now repeat split.
Qed.

(** Content that is absent (falsy) or that [JSON.parse] rejects leaves
    [parsed] the empty object. *)
Lemma parse_or_empty_degrades (c : JsVal) :
  JSON_parse "{}" = Some (JObj []) ->
  truthy c = false \/ (exists err, js_JSON_parse c = Err err) ->
  parse_or_empty (js_or c (VStr "{}")) = JObj [].
Proof.
  intros Hempty Hc. unfold parse_or_empty, js_or.
  destruct (truthy c) eqn:Ht.
  - destruct Hc as [Hc | (err & ->)]; [discriminate|reflexivity].
  - unfold js_JSON_parse. cbn [js_String VStr ToString_json rbind].
    now rewrite Hempty.
Qed.

(** The inference read from the empty object. *)
Lemma ai_estimate_defaults (out : Json) (c : JsVal) :
  JSON_parse "{}" = Some (JObj []) ->
  message_content (VJson out) = Ok c ->
  truthy c = false \/ (exists err, js_JSON_parse c = Err err) ->
  ai_estimate out = Ok (mkInference (VNum 0) 2.5 default_notes "ai").
Proof.
  intros Hempty Hc Hbad. unfold ai_estimate. rewrite Hc. cbn [rbind].
  rewrite (parse_or_empty_degrades c Hempty Hbad). reflexivity.
Qed.

(** Two lists of fields with the same bytes, position by position, give
    data URLs of the same number, or both stop at a field that is a text. *)
Lemma dataUrls_of_same_bytes (l1 l2 : list FormDataEntryValue) :
  map entry_bytes l1 = map entry_bytes l2 ->
  (exists u1 u2, dataUrls_of l1 = Ok u1 /\ dataUrls_of l2 = Ok u2
                 /\ List.length u1 = List.length u2)
  \/ (dataUrls_of l1 = Err (TypeError "f.arrayBuffer is not a function")
      /\ dataUrls_of l2 = Err (TypeError "f.arrayBuffer is not a function")).
Proof.
  revert l2. induction l1 as [|v1 l1 IH]; intros [|v2 l2]; simpl; try discriminate.
  - intros _. left. exists [], []. now repeat split.
  - destruct v1 as [s1|f1], v2 as [s2|f2]; simpl; try discriminate.
    + intros _. now right.
    + intros [= _ Hrest].
      destruct (IH l2 Hrest) as [(u1 & u2 & -> & -> & Hlen) | [-> ->]].
      * left. eexists _, _. repeat split. simpl. now rewrite Hlen.
      * now right.
Qed.

(** The run of the branch [r.ok]. *)
Lemma infer_and_quote_ok service key images outcome r out i a :
  forallb is_file images = true ->
  outcome = Ok r ->
  ok r = true ->
  json r = Ok out ->
  ai_estimate out = Ok i ->
  js_Number (inf_area_sqft i) = Ok a ->
  exists urls x,
    js_Number (rate_of service) = Ok x /\
    infer_and_quote service key images outcome no_effects
    = (Ok (mkResponse 200 (EstimateBody (priced service i (List.length images) a x))),
       mkEffects [request_of key service urls] []).
Proof.
  intros Hfiles -> Hok Hjson Hai Ha.
  destruct (dataUrls_of_files _ Hfiles) as (urls & Hurls & Hlen).
  destruct (rate_converts service) as (x & Hx).
  exists urls, x. split; [exact Hx|].
  unfold infer_and_quote, bind, await, fetch, ret, quote.
  rewrite Hurls, Hok, Hjson, Hlen. cbn [negb]. rewrite Hai. cbn [rbind].
  rewrite Ha. cbn [rbind]. rewrite Hx. reflexivity.
Qed.

(** What the branch [r.ok] assigns: an area [Math.max(0, a)], a complexity
    [Math.min(5, Math.max(1, c))] and the method "ai". *)
Lemma ai_estimate_inv (out : Json) (i : Inference) :
  ai_estimate out = Ok i ->
  exists a c n,
    i = mkInference (VNum (Num.Math_max 0 a)) (Num.Math_min 5 (Num.Math_max 1 c)) n "ai".
Proof.
  unfold ai_estimate.
  repeat match goal with
         | |- context [rbind ?x _] => destruct x; cbn [rbind]; try discriminate
         end.
  intros [= <-]. now eexists _, _, _.
Qed.

(** The names the object of the fallback answers with a number. *)
Lemma baseAreaByService_unlisted (service : string) :
  ~ In service ["house"; "windows"; "roof"; "driveway"; "gutters"] ->
  own_property baseAreaByService service = None.
Proof.
  intros Hin. cbv beta iota fix delta [baseAreaByService own_property].
  repeat match goal with
         | |- context [String.eqb ?k service] =>
             destruct (String.eqb_spec k service) as [E|_];
             [exfalso; apply Hin; rewrite <- E; simpl; auto 20|]
         end.
  reflexivity.
Qed.

Lemma Object_prototype_get_other (key : string) :
  ~ In key ("__proto__" :: Object_prototype_methods) ->
  Object_prototype_get key = VUndefined.
Proof.
  intros Hin. cbv beta iota fix delta [Object_prototype_get Object_prototype_methods existsb orb].
  repeat match goal with
         | |- context [String.eqb key ?k] =>
             destruct (String.eqb_spec key k) as [E|_];
             [exfalso; apply Hin; rewrite E; simpl; auto 20|]
         end.
  reflexivity.
Qed.

(** The content of the first message can be read from every JSON document
    but [null]: the optional chain stops at the first [undefined] or [null]
    instead of reading from it. *)
Lemma opt_get_defined (v : JsVal) (key : string) :
  exists w, opt_get v key = Ok w.
Proof.
  unfold opt_get.
  destruct v as [|[|b|x|s|items|props]|name|]; cbn [nullish js_get];
    try (eexists; reflexivity).
  - destruct (key =? "0"); [eexists; reflexivity|].
    destruct (key =? "length"); eexists; reflexivity.
  - destruct (key =? "0"); [eexists; reflexivity|].
    destruct (key =? "length"); eexists; reflexivity.
  - destruct (key =? "__proto__"); eexists; reflexivity.
Qed.

Lemma message_content_defined (out : Json) :
  out <> JNull ->
  exists c, message_content (VJson out) = Ok c.
Proof.
  intros Hout. unfold message_content.
  assert (Hc : exists choices, js_get (VJson out) "choices" = Ok choices).
  { destruct out as [|b|x|s|items|props]; [congruence| | | | |]; eexists; reflexivity. }
  destruct Hc as (choices & ->). cbn [rbind].
  destruct (opt_get_defined choices "0") as (first & ->). cbn [rbind].
  destruct (opt_get_defined first "message") as (msg & ->). cbn [rbind].
  apply opt_get_defined.
Qed.

(** The document [null] has no property to read. *)
Lemma message_content_null :
  message_content (VJson JNull)
  = Err (TypeError "Cannot read properties of null (reading 'choices')").
Proof. reflexivity. Qed.

Lemma mul_nan_r (x : float) : (x * nan)%float = nan.
Proof.
  apply Prim2SF_inj. rewrite mul_spec.
  change (Prim2SF nan) with S754_nan.
  now destruct (Prim2SF x) as [[]|[]| |[] m e].
Qed.

(** The properties of the JSON document of a 200 response. *)
Lemma wire_field_area (e : Estimate) :
  wire_field (EstimateBody e) "area_sqft"
  = own_property (wire_property "area_sqft" (area_sqft e)) "area_sqft".
Proof.
  unfold wire_field, wire.
  destruct (area_sqft e) as [|j|name|], (rate e) as [|j'|name'|]; reflexivity.
Qed.

Lemma wire_field_complexity (e : Estimate) :
  wire_field (EstimateBody e) "complexity" = Some (wire_number (complexity e)).
Proof.
  unfold wire_field, wire.
  destruct (area_sqft e) as [|j|name|], (rate e) as [|j'|name'|]; reflexivity.
Qed.

Lemma wire_field_rate (e : Estimate) :
  wire_field (EstimateBody e) "rate"
  = own_property (wire_property "rate" (rate e)) "rate".
Proof.
  unfold wire_field, wire.
  destruct (area_sqft e) as [|j|name|], (rate e) as [|j'|name'|]; reflexivity.
Qed.

Lemma wire_field_total (e : Estimate) :
  wire_field (EstimateBody e) "total" = Some (wire_number (total e)).
Proof.
  unfold wire_field, wire.
  destruct (area_sqft e) as [|j|name|], (rate e) as [|j'|name'|]; reflexivity.
Qed.

(** *** Properties of the handler *)

(** C6. A request whose form has no field [images] is answered 400
    with the error "No images uploaded", whatever the environment and the
    endpoint would answer, and the run makes no call to the endpoint (it has
    no effect at all). *)
Theorem no_images_is_400 req env outcome fd :
  formData req = Ok fd ->
  FormData_getAll fd "images" = [] ->
  POST req env outcome
  = (mkResponse 400 (ErrorBody "No images uploaded"), no_effects)
  /\ fetched (snd (POST req env outcome)) = [].
Proof.
  intros Hfd Himg.
  assert (H : POST req env outcome
              = (mkResponse 400 (ErrorBody "No images uploaded"), no_effects)).
  { unfold POST, POST_try, bind, await. rewrite Hfd, Himg. reflexivity. }
  split; [exact H | now rewrite H].
Qed.

(** C5, amended. When the key is unset or empty, a request with at least one
    field [images] is answered 500 with the error "Missing OPENAI_API_KEY on
    server", and no call is made.  (With no image the answer is the 400 of
    the check that comes first.) *)
Theorem missing_key_is_500 req env outcome fd :
  formData req = Ok fd ->
  FormData_getAll fd "images" <> [] ->
  unconfigured env ->
  POST req env outcome
  = (mkResponse 500 (ErrorBody "Missing OPENAI_API_KEY on server"), no_effects).
Proof.
  intros Hfd Himg Hkey. unfold POST.
  now rewrite (POST_try_unconfigured req env outcome fd Hfd Himg Hkey).
Qed.

(** C3, amended. With image files and the key set: a response of the
    endpoint that is not OK is masked, the caller gets a 200 quote of the
    Smart Estimator after exactly one call; a call that is rejected (no
    response at all) is not masked, the [catch] answers 500 with the text of
    the error. *)
Theorem endpoint_failure_handling req env outcome fd key :
  has_images req fd ->
  configured env key ->
  (forall r, outcome = Ok r -> ok r = false ->
     exists e, fst (POST req env outcome) = mkResponse 200 (EstimateBody e)
               /\ estimation_method e = "smart"
               /\ List.length (fetched (snd (POST req env outcome))) = 1%nat)
  /\
  (forall err, outcome = Err err ->
     fst (POST req env outcome) = mkResponse 500 (ErrorBody (error_text err))).
Proof.
  intros (Hfd & Himg & Hfiles) Hkey. split.
  - intros r Hout Hok.
    destruct (infer_and_quote_not_ok (service_of fd) key _ outcome r Hfiles Hout Hok)
      as (a & x & urls & _ & _ & Hrun).
    unfold POST. rewrite (POST_try_checked req env outcome fd key Hfd Himg Hkey), Hrun.
    eexists. repeat split.
  - intros err ->.
    destruct (dataUrls_of_files _ Hfiles) as (urls & Hurls & _).
    unfold POST. rewrite (POST_try_checked req env (Err err) fd key Hfd Himg Hkey).
    unfold infer_and_quote, bind, await, fetch. rewrite Hurls. reflexivity.
Qed.

(** C4, amended. With image files and the key set, when the endpoint answers
    OK: from a JSON document other than [null] the content of the first
    message is always read, and when that content is absent (falsy) or is
    rejected by [JSON.parse] the request does not fail, the response is 200
    with [area_sqft] 0, [complexity] 2.5, the default notes and the method
    "ai".  When the body of the OK response cannot be read as JSON, or is the
    document [null], the request fails: the [catch] answers 500 with the text
    of the error. *)
Theorem malformed_content_gives_defaults req env outcome fd key r :
  has_images req fd ->
  configured env key ->
  JSON_parse "{}" = Some (JObj []) ->
  outcome = Ok r ->
  ok r = true ->
  (forall out, json r = Ok out -> out <> JNull ->
     exists c,
       message_content (VJson out) = Ok c
       /\ (truthy c = false \/ (exists err, js_JSON_parse c = Err err) ->
           exists e,
             fst (POST req env outcome) = mkResponse 200 (EstimateBody e)
             /\ area_sqft e = VNum 0
             /\ complexity e = 2.5%float
             /\ notes e = "AI-computed from uploaded photos."
             /\ estimation_method e = "ai"))
  /\ (forall err, json r = Err err ->
        fst (POST req env outcome) = mkResponse 500 (ErrorBody (error_text err)))
  /\ (json r = Ok JNull ->
        fst (POST req env outcome)
        = mkResponse 500 (ErrorBody "Cannot read properties of null (reading 'choices')")).
Proof.
  intros (Hfd & Himg & Hfiles) Hkey Hempty -> Hok.
  destruct (dataUrls_of_files _ Hfiles) as (urls & Hurls & _).
  unfold POST. rewrite (POST_try_checked req env (Ok r) fd key Hfd Himg Hkey).
  unfold infer_and_quote, bind, await, fetch, ret.
  rewrite Hurls, Hok. cbn [negb].
  split; [|split].
  - intros out Hjson Hout.
    destruct (message_content_defined out Hout) as (c & Hc).
    exists c. split; [exact Hc|]. intros Hbad.
    rewrite Hjson, (ai_estimate_defaults out c Hempty Hc Hbad).
    unfold quote. cbn [inf_area_sqft js_Number VNum ToNumber_json rbind].
    destruct (rate_converts (service_of fd)) as (x & ->).
    eexists. repeat split.
  - intros err ->. reflexivity.
  - intros ->. unfold ai_estimate. rewrite message_content_null. reflexivity.
Qed.

(** C1, where it fails.  The rate is not always the entry of the table or
    0.15: the read [SERVICE_RATES_PER_SQFT[service]] follows the prototype
    chain, and [??] replaces [undefined] and [null] only.  In a 200 response
    for the service "constructor", which is no entry of the table, the rate
    is the function [Object] that every object inherits, not 0.15; the
    product with it is NaN, so the total is NaN whatever the area and the
    complexity factor are, and the JSON document has no property [rate] and
    [null] for the total. *)
Theorem rate_of_inherited_name req env outcome e :
  fst (POST req env outcome) = mkResponse 200 (EstimateBody e) ->
  service e = "constructor" ->
  own_property SERVICE_RATES_PER_SQFT "constructor" = None ->
  rate e = VFunction "Object"
  /\ rate e <> VNum 0.15
  /\ total e = nan
  /\ wire_field (EstimateBody e) "rate" = None
  /\ wire_field (EstimateBody e) "total" = Some JNull.
Proof.
  destruct (POST req env outcome) as [resp w] eqn:Hrun. cbn [fst]. intros ->.
  destruct (POST_inv _ _ _ _ _ Hrun)
    as [(st & msg & [=] & _)
       | (fd & key & urls & i & a & x & _ & _ & _ & _ & _ & _ & Hx & [= ->])].
  cbn [service priced]. intros Hs Hown. rewrite Hs in Hx.
  assert (Hr : rate_of "constructor" = VFunction "Object").
  { unfold rate_of, object_get. now rewrite Hown. }
  rewrite Hr in Hx. injection Hx as <-.
  assert (Ht : total (priced (service_of fd) i (List.length urls) a nan) = nan).
  { cbn [total priced]. rewrite mul_nan_r, NumFacts.mul_nan_l, NumFacts.Math_max_nan_r.
    reflexivity. }
  rewrite wire_field_rate, wire_field_total, Ht.
  cbn [rate priced]. rewrite Hs, Hr.
  repeat split; discriminate.
Qed.

(** C9. A form whose field [service] is the empty text and a form that has
    no field [service], with the same fields [images], are treated alike:
    the service is "house" for both and the two runs are equal, response and
    effects.  In such a run every call carries the prompt for "house", and a
    200 response echoes "house" with the rate for "house" and, from the
    fallback, the area 1500. *)
Theorem empty_service_is_house req1 req2 env outcome fd1 fd2 :
  formData req1 = Ok fd1 ->
  formData req2 = Ok fd2 ->
  FormData_get fd1 "service" = Some (EntryString "") ->
  FormData_get fd2 "service" = None ->
  FormData_getAll fd1 "images" = FormData_getAll fd2 "images" ->
  service_of fd1 = "house"
  /\ service_of fd2 = "house"
  /\ POST req1 env outcome = POST req2 env outcome
  /\ (forall rq, In rq (fetched (snd (POST req1 env outcome))) ->
        exists key urls, rq = request_of key "house" urls)
  /\ (forall e, content (fst (POST req1 env outcome)) = EstimateBody e ->
        service e = "house"
        /\ rate e = rate_of "house"
        /\ (estimation_method e = "smart" -> area_sqft e = VNum 1500)).
Proof.
  intros Hfd1 Hfd2 Hs1 Hs2 Himg.
  assert (H1 : service_of fd1 = "house") by (unfold service_of; now rewrite Hs1).
  assert (H2 : service_of fd2 = "house") by (unfold service_of; now rewrite Hs2).
  split; [exact H1|]. split; [exact H2|]. split.
  - unfold POST, POST_try, bind, await. rewrite Hfd1, Hfd2. cbv zeta.
    now rewrite H1, H2, Himg.
  - destruct (POST req1 env outcome) as [resp w] eqn:Hrun. cbn [fst snd].
    destruct (POST_inv _ _ _ _ _ Hrun)
      as [(st & msg & -> & Hst & Hw)
         | (fd & key & urls & i & a & x & Hfd & _ & _ & Hw & Hi & Ha & _ & ->)].
    + split; [|intros e; discriminate].
      intros rq. destruct Hw as [-> | (fd & key & urls & Hfd & ->)]; [intros []|].
      rewrite Hfd1 in Hfd. injection Hfd as <-. rewrite H1.
      intros [<- | []]. now eexists _, _.
    + rewrite Hfd1 in Hfd. injection Hfd as <-. rewrite H1 in *. split.
      * intros rq. rewrite Hw. intros [<- | []]. now eexists _, _.
      * cbn [content]. intros e [= <-]. cbn [service rate priced estimation_method area_sqft].
        split; [reflexivity|]. split; [reflexivity|].
        destruct Hi as [(r & _ & _ & ->) | (r & out & _ & _ & _ & Hai)].
        -- intros _. reflexivity.
        -- intros Hm. exfalso. revert Hai Hm. unfold ai_estimate.
           repeat match goal with
                  | |- context [rbind ?x _] => destruct x; cbn [rbind]; try discriminate
                  end.
           intros [= <-]. discriminate.
Qed.

(** C10. Two runs on forms with the same field [service] and the same image
    bytes, position by position, in environments with the same key, to which
    the endpoint gives the same answer, end in the same response: the same
    status and the same object. *)
Theorem POST_deterministic req1 req2 env1 env2 outcome fd1 fd2 :
  formData req1 = Ok fd1 ->
  formData req2 = Ok fd2 ->
  FormData_get fd1 "service" = FormData_get fd2 "service" ->
  map entry_bytes (FormData_getAll fd1 "images")
  = map entry_bytes (FormData_getAll fd2 "images") ->
  OPENAI_API_KEY env1 = OPENAI_API_KEY env2 ->
  fst (POST req1 env1 outcome) = fst (POST req2 env2 outcome).
Proof.
  intros Hfd1 Hfd2 Hs Himg Hkey.
  assert (Hsv : service_of fd1 = service_of fd2) by (unfold service_of; now rewrite Hs).
  assert (Hlen : List.length (FormData_getAll fd1 "images")
                 = List.length (FormData_getAll fd2 "images")).
  { rewrite <- (length_map entry_bytes), Himg. apply length_map. }
  unfold POST, POST_try, bind, await. rewrite Hfd1, Hfd2. cbv zeta.
  rewrite Hsv, Hlen, Hkey.
  destruct (List.length (FormData_getAll fd2 "images") =? 0)%nat; [reflexivity|].
  destruct (OPENAI_API_KEY env2) as [[|c k]|]; try reflexivity.
  unfold infer_and_quote, bind, await, fetch, console_log, ret.
  destruct (dataUrls_of_same_bytes _ _ Himg)
    as [(u1 & u2 & -> & -> & Hu) | [-> ->]]; [|reflexivity].
  rewrite Hu.
  destruct outcome as [r|err]; [|reflexivity].
  destruct (negb (ok r)).
  - destruct (quote (service_of fd2) (smart_estimate (service_of fd2)) (List.length u2));
      reflexivity.
  - destruct (json r) as [out|]; [|reflexivity].
    destruct (ai_estimate out) as [i|]; [|reflexivity].
    destruct (quote (service_of fd2) i (List.length u2)); reflexivity.
Qed.

(** C2, where it fails.  With image files, the key set and a response that
    is not OK, a form whose service is "constructor" gets a 200 response of
    the Smart Estimator with complexity 2.5, but its area is not 1000: the
    read [baseAreaByService[service]] finds the function [Object] that every
    object inherits, which is truthy.  The total is NaN, and the JSON document
    has no property [area_sqft] and [null] for the total. *)
Theorem fallback_area_of_inherited_name req env outcome fd key r :
  has_images req fd ->
  configured env key ->
  outcome = Ok r ->
  ok r = false ->
  service_of fd = "constructor" ->
  exists e,
    fst (POST req env outcome) = mkResponse 200 (EstimateBody e)
    /\ estimation_method e = "smart"
    /\ complexity e = 2.5%float
    /\ area_sqft e = VFunction "Object"
    /\ area_sqft e <> VNum 1000
    /\ total e = nan
    /\ wire_field (EstimateBody e) "area_sqft" = None
    /\ wire_field (EstimateBody e) "total" = Some JNull.
Proof.
  intros (Hfd & Himg & Hfiles) Hkey Hout Hok Hs.
  destruct (infer_and_quote_not_ok (service_of fd) key _ outcome r Hfiles Hout Hok)
    as (a & x & urls & Ha & _ & Hrun).
  unfold POST. rewrite (POST_try_checked req env outcome fd key Hfd Himg Hkey), Hrun.
  rewrite Hs in *. injection Ha as <-.
  assert (Ht : total (priced "constructor" (smart_estimate "constructor")
                        (List.length (FormData_getAll fd "images")) nan x) = nan).
  { cbn [total priced]. rewrite !NumFacts.mul_nan_l, NumFacts.Math_max_nan_r.
    reflexivity. }
  eexists. split; [reflexivity|].
  rewrite wire_field_area, wire_field_total, Ht.
  repeat split; try exact Ht. discriminate.
Qed.

(** C7, where it fails.  When the content of the message is a JSON object
    whose [complexity] is the text "high", which denotes no number, the
    complexity that is priced and echoed is NaN: [Number("high")] is NaN and
    [Math.max] and [Math.min] let NaN through.  The response is 200 and its
    JSON document has [null] for the complexity. *)
Theorem complexity_text_is_not_clamped req env fd key :
  has_images req fd ->
  configured env key ->
  JSON_parse Sample.vague_complexity
  = Some (JObj [("area_sqft", JNum 1200); ("complexity", JStr "high");
                ("notes", JStr "two stories")]) ->
  StringToNumber "high" = nan ->
  exists e,
    fst (POST req env (Sample.answer (JStr Sample.vague_complexity)))
    = mkResponse 200 (EstimateBody e)
    /\ estimation_method e = "ai"
    /\ complexity e = nan
    /\ Num.between 1 5 (complexity e) = false
    /\ wire_field (EstimateBody e) "complexity" = Some JNull.
Proof.
  intros (Hfd & Himg & Hfiles) Hkey Hparse Hnum.
  assert (Hai : ai_estimate
(Sample.envelope (JStr Sample.vague_complexity))
                = Ok (mkInference (VNum 1200) nan "two stories" "ai")).
  { unfold ai_estimate.
    match goal with
    | |- context [message_content ?v] =>
        change (message_content v) with (Ok (VStr Sample.vague_complexity))
    end.
    cbn [rbind].
    change (js_or (VStr Sample.vague_complexity) (VStr "{}")) with (VStr Sample.vague_complexity).
    unfold parse_or_empty, js_JSON_parse.
    cbn [js_String VStr ToString_json rbind].
    rewrite Hparse.
    cbn [js_get object_get own_property rbind js_or truthy js_Number ToNumber_json
         js_String ToString_json VNum VStr String.eqb Ascii.eqb Bool.eqb negb].
    rewrite Hnum. reflexivity. }
  destruct (infer_and_quote_ok (service_of fd) key _
              (Sample.answer (JStr Sample.vague_complexity))
              (mkFetchResponse true (Ok (Sample.envelope (JStr Sample.vague_complexity))))
              _ _ 1200%float Hfiles eq_refl eq_refl eq_refl Hai eq_refl)
    as (urls & x & _ & Hrun).
  unfold POST. rewrite (POST_try_checked req env _ fd key Hfd Himg Hkey).
  rewrite Hrun.
  eexists. split; [reflexivity|].
  rewrite wire_field_complexity. repeat split.
Qed.

(** C8, where it fails.  When the content of the message is a JSON object
    whose [area_sqft] is the text "unknown", which denotes no number, the
    area of the response is NaN, which is not a number at least 0:
    [Math.max(0, NaN)] is NaN.  The response is 200 and its JSON document has
    [null] for the area and for the total. *)
Theorem area_text_is_not_a_number req env fd key :
  has_images req fd ->
  configured env key ->
  JSON_parse Sample.vague_area
  = Some (JObj [("area_sqft", JStr "unknown"); ("complexity", JNum 3);
                ("notes", JStr "view blocked")]) ->
  StringToNumber "unknown" = nan ->
  exists e,
    fst (POST req env (Sample.answer (JStr Sample.vague_area)))
    = mkResponse 200 (EstimateBody e)
    /\ estimation_method e = "ai"
    /\ area_sqft e = VNum nan
    /\ (0 <=? nan)%float = false
    /\ total e = nan
    /\ wire_field (EstimateBody e) "area_sqft" = Some JNull
    /\ wire_field (EstimateBody e) "total" = Some JNull.
Proof.
  intros (Hfd & Himg & Hfiles) Hkey Hparse Hnum.
  assert (Hai : ai_estimate
(Sample.envelope (JStr Sample.vague_area))
                = Ok (mkInference (VNum nan) 3 "view blocked" "ai")).
  { unfold ai_estimate.
    match goal with
    | |- context [message_content ?v] =>
        change (message_content v) with (Ok (VStr Sample.vague_area))
    end.
    cbn [rbind].
    change (js_or (VStr Sample.vague_area) (VStr "{}")) with (VStr Sample.vague_area).
    unfold parse_or_empty, js_JSON_parse.
    cbn [js_String VStr ToString_json rbind].
    rewrite Hparse.
    cbn [js_get object_get own_property rbind js_or truthy js_Number ToNumber_json
         js_String ToString_json VNum VStr String.eqb Ascii.eqb Bool.eqb negb].
    rewrite Hnum. reflexivity. }
  destruct (infer_and_quote_ok (service_of fd) key _
              (Sample.answer (JStr Sample.vague_area))
              (mkFetchResponse true (Ok (Sample.envelope (JStr Sample.vague_area))))
              _ _ nan Hfiles eq_refl eq_refl eq_refl Hai eq_refl)
    as (urls & x & _ & Hrun).
  unfold POST. rewrite (POST_try_checked req env _ fd key Hfd Himg Hkey).
  rewrite Hrun.
  assert (Ht : total (priced (service_of fd) (mkInference (VNum nan) 3 "view blocked" "ai")
                        (List.length (FormData_getAll fd "images")) nan x) = nan).
  { cbn [total priced]. rewrite !NumFacts.mul_nan_l, NumFacts.Math_max_nan_r.
    reflexivity. }
  eexists. split; [reflexivity|].
  rewrite wire_field_area, wire_field_total, Ht.
  repeat split; exact Ht.
Qed.

(** X1. The fallback, service by service.  With image files, the key set and a
    response that is not OK, the response is a 200 quote of the Smart
    Estimator with complexity 2.5, and its area is 1500, 800, 1200, 400 or 200
    for the five services of the table, and 1000 for any other service that
    is not the name of a member of [Object.prototype]. *)
Theorem fallback_area_by_service req env outcome fd key r :
  has_images req fd ->
  configured env key ->
  outcome = Ok r ->
  ok r = false ->
  exists e,
    fst (POST req env outcome) = mkResponse 200 (EstimateBody e)
    /\ estimation_method e = "smart"
    /\ complexity e = 2.5%float
    /\ (service_of fd = "house" -> area_sqft e = VNum 1500)
    /\ (service_of fd = "windows" -> area_sqft e = VNum 800)
    /\ (service_of fd = "roof" -> area_sqft e = VNum 1200)
    /\ (service_of fd = "driveway" -> area_sqft e = VNum 400)
    /\ (service_of fd = "gutters" -> area_sqft e = VNum 200)
    /\ (~ In (service_of fd) ["house"; "windows"; "roof"; "driveway"; "gutters"] ->
        ~ In (service_of fd) ("__proto__" :: Object_prototype_methods) ->
        area_sqft e = VNum 1000).
Proof.
  intros (Hfd & Himg & Hfiles) Hkey Hout Hok.
  destruct (infer_and_quote_not_ok (service_of fd) key _ outcome r Hfiles Hout Hok)
    as (a & x & urls & _ & _ & Hrun).
  unfold POST. rewrite (POST_try_checked req env outcome fd key Hfd Himg Hkey), Hrun.
  eexists. split; [reflexivity|].
  cbn [estimation_method complexity area_sqft priced].
  repeat split; try (intros ->; reflexivity).
  intros Hlisted Hinherited. unfold smart_estimate. cbn [inf_area_sqft].
  unfold object_get.
  now rewrite (baseAreaByService_unlisted _ Hlisted),
              (Object_prototype_get_other _ Hinherited).
Qed.

(** X2. The complexity of every 200 response lies in [1, 5] or is NaN: the
    clamp of line 99 holds for every number other than NaN. *)
Theorem complexity_in_range_or_nan req env outcome :
  status (fst (POST req env outcome)) = 200%Z ->
  exists e,
    content (fst (POST req env outcome)) = EstimateBody e
    /\ (Num.between 1 5 (complexity e) = true \/ complexity e = nan).
Proof.
  destruct (POST req env outcome) as [resp w] eqn:Hrun. cbn [fst].
  destruct (POST_inv _ _ _ _ _ Hrun)
    as [(st & msg & -> & Hst & _)
       | (fd & key & urls & i & a & x & _ & _ & _ & _ & Hi & _ & _ & ->)].
  - cbn [status]. intros ->. destruct Hst; discriminate.
  - intros _. eexists. split; [reflexivity|]. cbn [complexity priced].
    destruct Hi as [(r & _ & _ & ->) | (r & out & _ & _ & _ & Hai)].
    + left. reflexivity.
    + destruct (ai_estimate_inv _ _ Hai) as (a' & c & n & ->). cbn [inf_complexity].
      destruct (is_nan c) eqn:Hc.
      * right. now apply NumFacts.clamp_nan.
      * left. now apply NumFacts.clamp_between.
Qed.

(** X3. The area of every 200 response of the method "ai" is a number that
    is at least 0 or is NaN. *)
Theorem ai_area_nonnegative_or_nan req env outcome e :
  fst (POST req env outcome) = mkResponse 200 (EstimateBody e) ->
  estimation_method e = "ai" ->
  exists a, area_sqft e = VNum a /\ ((0 <=? a)%float = true \/ a = nan).
Proof.
  destruct (POST req env outcome) as [resp w] eqn:Hrun. cbn [fst]. intros ->.
  destruct (POST_inv _ _ _ _ _ Hrun)
    as [(st & msg & [=] & _)
       | (fd & key & urls & i & a & x & _ & _ & _ & _ & Hi & _ & _ & [= ->])].
  cbn [estimation_method area_sqft priced].
  destruct Hi as [(r & _ & _ & ->) | (r & out & _ & _ & _ & Hai)]; [discriminate|].
  destruct (ai_estimate_inv _ _ Hai) as (a' & c & n & ->). cbn [inf_area_sqft].
  intros _. eexists. split; [reflexivity|].
  destruct (is_nan a') eqn:Ha.
  - right. now apply NumFacts.max0_nan.
  - left. now apply NumFacts.max0_nonneg.
Qed.

End Properties.

(** ** The properties at the examples *)

(** C6 at a form with a service and no image. *)
Lemma no_images_is_400_witness :
  Sample.run (Sample.request Sample.form_without_images) Sample.env_with_key
    Sample.unavailable
  = (mkResponse 400 (ErrorBody "No images uploaded"), no_effects)
  /\ fetched (snd (Sample.run (Sample.request Sample.form_without_images)
                     Sample.env_with_key Sample.unavailable)) = [].
Proof.
  exact (@no_images_is_400 Sample.runtime Sample.pricing
           (Sample.request Sample.form_without_images) Sample.env_with_key
           Sample.unavailable Sample.form_without_images eq_refl eq_refl).
Defined.

(** C5 as stated fails: without a key and without an image the answer is the
    400 of the first check, not the 500 of the second. *)
Lemma missing_key_without_images_is_400 :
  unconfigured Sample.env_without_key
  /\ fst (Sample.run (Sample.request Sample.form_without_images)
            Sample.env_without_key Sample.unavailable)
     = mkResponse 400 (ErrorBody "No images uploaded")
  /\ fst (Sample.run (Sample.request Sample.form_without_images)
            Sample.env_without_key Sample.unavailable)
     <> mkResponse 500 (ErrorBody "Missing OPENAI_API_KEY on server").
Proof.
  split; [now left|]. split; [reflexivity|discriminate].
Qed.

(** C5, amended, at a form with an image. *)
Lemma missing_key_is_500_witness :
  Sample.run (Sample.request (Sample.form "house")) Sample.env_without_key
    Sample.unavailable
  = (mkResponse 500 (ErrorBody "Missing OPENAI_API_KEY on server"), no_effects).
Proof.
  apply (@missing_key_is_500 Sample.runtime Sample.pricing
           (Sample.request (Sample.form "house")) Sample.env_without_key
           Sample.unavailable (Sample.form "house")).
  - reflexivity.
  - discriminate.
  - now left.
Defined.

(** C3 as stated fails: with an image and the key set, a call that is
    rejected, and an OK response whose JSON document is [null], are answered
    500 with the text of the error. *)
Lemma rejected_call_is_500 :
  has_images (Sample.request (Sample.form "house")) (Sample.form "house")
  /\ configured Sample.env_with_key "sk-test"
  /\ fst (Sample.run (Sample.request (Sample.form "house")) Sample.env_with_key
            Sample.unreachable)
     = mkResponse 500 (ErrorBody "fetch failed")
  /\ fst (Sample.run (Sample.request (Sample.form "house")) Sample.env_with_key
            (Ok (mkFetchResponse true (Ok JNull))))
     = mkResponse 500 (ErrorBody "Cannot read properties of null (reading 'choices')").
Proof.
  repeat split; discriminate.
Qed.

(** C3, amended, at a response 503 and at a rejected call. *)
Lemma endpoint_failure_handling_witness :
  (exists e,
      fst (Sample.run (Sample.request (Sample.form "house")) Sample.env_with_key
             Sample.unavailable)
      = mkResponse 200 (EstimateBody e)
      /\ estimation_method e = "smart"
      /\ List.length (fetched (snd (Sample.run (Sample.request (Sample.form "house"))
                                      Sample.env_with_key Sample.unavailable))) = 1%nat)
  /\ (forall err, Sample.unreachable = Err err ->
        fst (Sample.run (Sample.request (Sample.form "house")) Sample.env_with_key
               Sample.unreachable)
        = mkResponse 500 (ErrorBody (error_text err))).
Proof.
  assert (Himg : has_images (Sample.request (Sample.form "house")) (Sample.form "house"))
    by (repeat split; discriminate).
  assert (Hkey : configured Sample.env_with_key "sk-test")
    by (split; [reflexivity|discriminate]).
  split.
  - exact (proj1 (@endpoint_failure_handling Sample.runtime Sample.pricing
                    _ _ Sample.unavailable _ _ Himg Hkey)
             (mkFetchResponse false
                (Ok (JObj [("error", JObj [("message", JStr "Service unavailable")])])))
             eq_refl eq_refl).
  - exact (proj2 (@endpoint_failure_handling Sample.runtime Sample.pricing
                    _ _ Sample.unreachable _ _ Himg Hkey)).
Defined.

(** C4 as stated fails: with an image and the key set, an OK response with
    no message content, because its JSON document is [null] or its body is
    no JSON document at all, fails the request with status 500. *)
Lemma ok_answer_without_document_is_500 :
  has_images (Sample.request (Sample.form "roof")) (Sample.form "roof")
  /\ configured Sample.env_with_key "sk-test"
  /\ fst (Sample.run (Sample.request (Sample.form "roof")) Sample.env_with_key
            (Ok (mkFetchResponse true (Ok JNull))))
     = mkResponse 500 (ErrorBody "Cannot read properties of null (reading 'choices')")
  /\ fst (Sample.run (Sample.request (Sample.form "roof")) Sample.env_with_key
            Edge.garbled)
     = mkResponse 500 (ErrorBody "Unexpected token < in JSON at position 0").
Proof.
  repeat split; discriminate.
Qed.

(** C4, amended, at a content that is no JSON document and at a document
    with no choices, where the content is [undefined]. *)
Lemma malformed_content_gives_defaults_witness :
  (exists e,
      fst (Sample.run (Sample.request (Sample.form "roof")) Sample.env_with_key
             (Sample.answer (JStr "not json")))
      = mkResponse 200 (EstimateBody e)
      /\ area_sqft e = VNum 0
      /\ complexity e = 2.5%float
      /\ notes e = "AI-computed from uploaded photos."
      /\ estimation_method e = "ai")
  /\ (exists e,
        fst (Sample.run (Sample.request (Sample.form "roof")) Sample.env_with_key
               (Ok (mkFetchResponse true (Ok (JObj [])))))
        = mkResponse 200 (EstimateBody e)
        /\ area_sqft e = VNum 0
        /\ complexity e = 2.5%float
        /\ notes e = "AI-computed from uploaded photos."
        /\ estimation_method e = "ai").
Proof.
  assert (Himg : has_images (Sample.request (Sample.form "roof")) (Sample.form "roof"))
    by (repeat split; discriminate).
  assert (Hkey : configured Sample.env_with_key "sk-test")
    by (split; [reflexivity|discriminate]).
  split.
  - destruct (proj1 (@malformed_content_gives_defaults Sample.runtime Sample.pricing
                       _ _ (Sample.answer (JStr "not json")) _ _
                       (mkFetchResponse true (Ok (Sample.envelope (JStr "not json"))))
                       Himg Hkey eq_refl eq_refl eq_refl)
                (Sample.envelope (JStr "not json")) eq_refl)
      as (c & Hc & H); [discriminate|].
    injection Hc as <-. apply H. right. eexists. reflexivity.
  - destruct (proj1 (@malformed_content_gives_defaults Sample.runtime Sample.pricing
                       _ _ (Ok (mkFetchResponse true (Ok (JObj [])))) _ _
                       (mkFetchResponse true (Ok (JObj [])))
                       Himg Hkey eq_refl eq_refl eq_refl)
                (JObj []) eq_refl)
      as (c & Hc & H); [discriminate|].
    injection Hc as <-. apply H. left. reflexivity.
Defined.

(** C1 fails at the service "constructor": for a quote of the model, 1200
    square feet at complexity 3, the total at the rate 0.15 would be 270. *)
Lemma rate_of_inherited_name_witness :
  exists e,
    fst (Sample.run (Sample.request (Sample.form "constructor")) Sample.env_with_key
           (Sample.answer (JStr Sample.quote_text)))
    = mkResponse 200 (EstimateBody e)
    /\ service e = "constructor"
    /\ own_property (SERVICE_RATES_PER_SQFT (Pricing := Sample.pricing)) "constructor" = None
    /\ area_sqft e = VNum 1200
    /\ complexity_factor e = 1.5%float
    /\ round_cents (Num.Math_max (MIN_JOB_FEE (Pricing := Sample.pricing))
                      (1200 * 0.15 * 1.5)) = 270%float
    /\ rate e = VFunction "Object"
    /\ rate e <> VNum 0.15
    /\ total e = nan
    /\ wire_field (EstimateBody e) "rate" = None
    /\ wire_field (EstimateBody e) "total" = Some JNull.
Proof.
  exists (mkEstimate "constructor" (VNum 1200) 3 (VFunction "Object") 1.5 nan
            "two stories" 1 "ai").
  split; [reflexivity|]. split; [reflexivity|]. split; [reflexivity|].
  split; [reflexivity|]. split; [reflexivity|]. split; [reflexivity|].
  exact (@rate_of_inherited_name Sample.runtime Sample.pricing
           (Sample.request (Sample.form "constructor")) Sample.env_with_key
           (Sample.answer (JStr Sample.quote_text))
           (mkEstimate "constructor" (VNum 1200) 3 (VFunction "Object") 1.5 nan
              "two stories" 1 "ai")
           eq_refl eq_refl eq_refl).
Defined.

(** C9 at the forms with an empty service and with none. *)
Lemma empty_service_is_house_witness :
  service_of (Sample.form "") = "house"
  /\ service_of Sample.form_without_service = "house"
  /\ Sample.run (Sample.request (Sample.form "")) Sample.env_with_key Sample.unavailable
     = Sample.run (Sample.request Sample.form_without_service) Sample.env_with_key
         Sample.unavailable.
Proof.
  pose proof (@empty_service_is_house Sample.runtime Sample.pricing
                (Sample.request (Sample.form ""))
                (Sample.request Sample.form_without_service)
                Sample.env_with_key Sample.unavailable
                (Sample.form "") Sample.form_without_service
                eq_refl eq_refl eq_refl eq_refl eq_refl) as (H1 & H2 & H3 & _).
  exact (conj H1 (conj H2 H3)).
Defined.

(** C10 at two forms whose image has the same bytes under different names
    and types. *)
Lemma POST_deterministic_witness :
  fst (Sample.run (Sample.request (Sample.form "roof")) Sample.env_with_key
         (Sample.answer (JStr Sample.quote_text)))
  = fst (Sample.run (Sample.request (Sample.form_copy "roof")) Sample.env_with_key
           (Sample.answer (JStr Sample.quote_text))).
Proof.
  exact (@POST_deterministic Sample.runtime Sample.pricing
           (Sample.request (Sample.form "roof")) (Sample.request (Sample.form_copy "roof"))
           Sample.env_with_key Sample.env_with_key
           (Sample.answer (JStr Sample.quote_text))
           (Sample.form "roof") (Sample.form_copy "roof")
           eq_refl eq_refl eq_refl eq_refl eq_refl).
Defined.

(** C2 fails at the service "constructor". *)
Lemma fallback_area_of_inherited_name_witness :
  exists e,
    fst (Sample.run (Sample.request (Sample.form "constructor")) Sample.env_with_key
           Sample.unavailable)
    = mkResponse 200 (EstimateBody e)
    /\ estimation_method e = "smart"
    /\ complexity e = 2.5%float
    /\ area_sqft e = VFunction "Object"
    /\ area_sqft e <> VNum 1000
    /\ total e = nan
    /\ wire_field (EstimateBody e) "area_sqft" = None
    /\ wire_field (EstimateBody e) "total" = Some JNull.
Proof.
  apply (@fallback_area_of_inherited_name Sample.runtime Sample.pricing
           (Sample.request (Sample.form "constructor")) Sample.env_with_key
           Sample.unavailable (Sample.form "constructor") "sk-test"
           (mkFetchResponse false
              (Ok (JObj [("error", JObj [("message", JStr "Service unavailable")])])))).
  - repeat split; discriminate.
  - split; [reflexivity|discriminate].
  - reflexivity.
  - reflexivity.
  - reflexivity.
Defined.

(** C7 fails at a complexity "high". *)
Lemma complexity_text_is_not_clamped_witness :
  exists e,
    fst (Sample.run (Sample.request (Sample.form "roof")) Sample.env_with_key
           (Sample.answer (JStr Sample.vague_complexity)))
    = mkResponse 200 (EstimateBody e)
    /\ estimation_method e = "ai"
    /\ complexity e = nan
    /\ Num.between 1 5 (complexity e) = false
    /\ wire_field (EstimateBody e) "complexity" = Some JNull.
Proof.
  apply (@complexity_text_is_not_clamped Sample.runtime Sample.pricing
           (Sample.request (Sample.form "roof")) Sample.env_with_key
           (Sample.form "roof") "sk-test").
  - repeat split; discriminate.
  - split; [reflexivity|discriminate].
  - reflexivity.
  - reflexivity.
Defined.

(** C8 fails at an area "unknown". *)
Lemma area_text_is_not_a_number_witness :
  exists e,
    fst (Sample.run (Sample.request (Sample.form "roof")) Sample.env_with_key
           (Sample.answer (JStr Sample.vague_area)))
    = mkResponse 200 (EstimateBody e)
    /\ estimation_method e = "ai"
    /\ area_sqft e = VNum nan
    /\ (0 <=? nan)%float = false
    /\ total e = nan
    /\ wire_field (EstimateBody e) "area_sqft" = Some JNull
    /\ wire_field (EstimateBody e) "total" = Some JNull.
Proof.
  apply (@area_text_is_not_a_number Sample.runtime Sample.pricing
           (Sample.request (Sample.form "roof")) Sample.env_with_key
           (Sample.form "roof") "sk-test").
  - repeat split; discriminate.
  - split; [reflexivity|discriminate].
  - reflexivity.
  - reflexivity.
Defined.

(** X1 at the service "driveway": 400 square feet. *)
Lemma fallback_area_by_service_witness :
  exists e,
    fst (Sample.run (Sample.request (Sample.form "driveway")) Sample.env_with_key
           Sample.unavailable)
    = mkResponse 200 (EstimateBody e)
    /\ estimation_method e = "smart"
    /\ complexity e = 2.5%float
    /\ area_sqft e = VNum 400.
Proof.
  destruct (@fallback_area_by_service Sample.runtime Sample.pricing
              (Sample.request (Sample.form "driveway")) Sample.env_with_key
              Sample.unavailable (Sample.form "driveway") "sk-test"
              (mkFetchResponse false
                 (Ok (JObj [("error", JObj [("message", JStr "Service unavailable")])]))))
    as (e & He & Hm & Hc & _ & _ & _ & Hd & _).
  - repeat split; discriminate.
  - split; [reflexivity|discriminate].
  - reflexivity.
  - reflexivity.
  - exists e. repeat split; try assumption. now apply Hd.
Defined.

(** X2 at the response to a quote of the model. *)
Lemma complexity_in_range_or_nan_witness :
  exists e,
    content (fst (Sample.run (Sample.request (Sample.form "house")) Sample.env_with_key
                    (Sample.answer (JStr Sample.quote_text))))
    = EstimateBody e
    /\ (Num.between 1 5 (complexity e) = true \/ complexity e = nan).
Proof.
  exact (@complexity_in_range_or_nan Sample.runtime Sample.pricing
           (Sample.request (Sample.form "house")) Sample.env_with_key
           (Sample.answer (JStr Sample.quote_text)) eq_refl).
Defined.

(** X3 at the response to a quote of the model. *)
Lemma ai_area_nonnegative_or_nan_witness :
  exists a, VNum 1200 = VNum a /\ ((0 <=? a)%float = true \/ a = nan).
Proof.
  exact (@ai_area_nonnegative_or_nan Sample.runtime Sample.pricing
           (Sample.request (Sample.form "house")) Sample.env_with_key
           (Sample.answer (JStr Sample.quote_text))
           (mkEstimate "house" (VNum 1200) 3 (VNum 0.15) 1.5 270 "two stories" 1 "ai")
           eq_refl eq_refl).
Defined.

(** ** More facts on numbers: what [Math.max] and [Math.min] return *)

Module NumBounds.

Import Num.

Local Open Scope float_scope.

Lemma SFcompare_refl (x : spec_float) :
  x <> S754_nan -> SFcompare x x = Some Eq.
Proof.
  destruct x as [s|s| |s m e]; simpl; try congruence; intros _.
  - now destruct s.
  - rewrite Z.compare_refl, Pos.compare_cont_refl. now destruct s.
Qed.

(** Numbers that compare equal to a finite number other than zero are that
    number. *)
Lemma SFcompare_Eq_finite (x : spec_float) (s : bool) (m : positive) (e : Z) :
  SFcompare x (S754_finite s m e) = Some Eq -> x = S754_finite s m e.
Proof.
  destruct x as [sx|sx| |sx mx ex]; simpl; try discriminate.
  - destruct s; discriminate.
  - destruct sx, s; discriminate.
  - destruct sx, s; try discriminate;
      destruct (Z.compare_spec ex e) as [->| |]; try discriminate;
      intros [= H];
      [apply (f_equal CompOpp) in H; rewrite CompOpp_involutive in H; simpl in H|];
      apply Pos.compare_eq in H; now subst.
Qed.

(** A comparison that holds has no NaN on either side. *)
Lemma ltb_true_numbers (x y : float) :
  (x <? y) = true -> is_nan x = false /\ is_nan y = false.
Proof.
  rewrite ltb_spec. unfold SFltb, is_nan. rewrite !FloatAxioms.eqb_spec. unfold SFeqb.
  intros H.
  assert (Hx : Prim2SF x <> S754_nan) by (intros E; rewrite E in H; discriminate).
  assert (Hy : Prim2SF y <> S754_nan)
    by (intros E; rewrite E in H; destruct (Prim2SF x); discriminate).
  now rewrite (SFcompare_refl _ Hx), (SFcompare_refl _ Hy).
Qed.

Lemma ltb_asym (x y : float) : (x <? y) = true -> (y <? x) = false.
Proof.
  rewrite !ltb_spec. unfold SFltb.
  destruct (SFcompare (Prim2SF x) (Prim2SF y)) as [c|] eqn:Hc; [|discriminate].
  rewrite (NumFacts.SFcompare_antisym _ _ _ Hc). now destruct c.
Qed.

(** [Math.max(m, p)] is [m] when [p] is below it and [p] when [p] is above. *)
Lemma Math_max_below (m p : float) : (p <? m) = true -> Math_max m p = m.
Proof.
  intros H. destruct (ltb_true_numbers _ _ H) as [Hp Hm].
  unfold Math_max. now rewrite Hm, Hp, (ltb_asym _ _ H), H.
Qed.

Lemma Math_max_above (m p : float) : (m <? p) = true -> Math_max m p = p.
Proof.
  intros H. destruct (ltb_true_numbers _ _ H) as [Hm Hp].
  unfold Math_max. now rewrite Hm, Hp, H.
Qed.

(** [Math.max(0, a)] on a number. *)
Lemma max0_value (a : float) :
  is_nan a = false -> Math_max 0 a = if 0 <? a then a else 0.
Proof.
  intros Ha. unfold Math_max. change (is_nan 0) with false. rewrite Ha. cbn [orb].
  destruct (0 <? a); [reflexivity|]. now destruct (a <? 0).
Qed.

(** [Math.min(5, Math.max(1, x))] on a number: the nearer bound outside
    [1, 5], the number itself inside. *)
Lemma clamp_value (x : float) :
  is_nan x = false ->
  Math_min 5 (Math_max 1 x) = if x <? 1 then 1 else if 5 <? x then 5 else x.
Proof.
  intros Hx.
  destruct (x <? 1) eqn:Hlo.
  - now rewrite (Math_max_below 1 x Hlo).
  - destruct (1 <? x) eqn:Hhi.
    + rewrite (Math_max_above 1 x Hhi). unfold Math_min.
      change (is_nan 5) with false. rewrite Hx. cbn [orb].
      destruct (5 <? x); [reflexivity|]. now destruct (x <? 5).
    + assert (Hone : x = 1).
      { apply Prim2SF_inj. change (Prim2SF 1) with (S754_finite false 4503599627370496 (-52)).
        apply SFcompare_Eq_finite.
        pose proof (NumFacts.is_nan_false x Hx) as Hxx.
        destruct (NumFacts.SFcompare_defined _ _ Hxx (NumFacts.is_nan_false 1 eq_refl))
          as (c & Hc).
        change (Prim2SF 1) with (S754_finite false 4503599627370496 (-52)) in Hc.
        rewrite ltb_spec in Hlo, Hhi. unfold SFltb in Hlo, Hhi.
        change (Prim2SF 1) with (S754_finite false 4503599627370496 (-52)) in Hlo, Hhi.
        rewrite (NumFacts.SFcompare_antisym _ _ _ Hc) in Hhi. rewrite Hc in Hlo.
        destruct c; simpl in *; congruence. }
      subst x. reflexivity.
Qed.

End NumBounds.

Section Coverage.

Context {runtime : Runtime} {pricing : Pricing}.

(** *** Every way a run can go *)

(** The response of the [catch]. *)
Local Notation "'caught' e" := (mkResponse 500 (ErrorBody (error_text e)))
  (at level 10, e at level 9, only parsing).

Lemma dataUrls_of_ok (images : list FormDataEntryValue) (urls : list string) :
  dataUrls_of images = Ok urls ->
  forallb is_file images = true /\ List.length urls = List.length images.
Proof.
  revert urls. induction images as [|v rest IH]; simpl; intros urls.
  - intros [= <-]. now split.
  - destruct v as [s|f]; [discriminate|].
    destruct (dataUrls_of rest) as [u|e]; simpl; [|discriminate].
    intros [= <-]. destruct (IH u eq_refl) as [H1 H2]. split; [exact H1|].
    simpl. now rewrite H2.
Qed.

Lemma dataUrls_of_err (images : list FormDataEntryValue) (e : Exn) :
  dataUrls_of images = Err e ->
  e = TypeError "f.arrayBuffer is not a function"
  /\ exists s, In (EntryString s) images.
Proof.
  induction images as [|v rest IH]; simpl; [discriminate|].
  destruct v as [s|f].
  - intros [= <-]. split; [reflexivity|]. exists s. now left.
  - destruct (dataUrls_of rest) as [u|e'] eqn:Hrest; simpl; [discriminate|].
    intros [= <-]. destruct (IH eq_refl) as (He & s & Hs).
    split; [exact He|]. exists s. now right.
Qed.

Lemma dataUrls_of_text (images : list FormDataEntryValue) (s : string) :
  In (EntryString s) images ->
  dataUrls_of images = Err (TypeError "f.arrayBuffer is not a function").
Proof.
  induction images as [|v rest IH]; simpl; [intros []|].
  intros [-> | Hin]; [reflexivity|].
  destruct v as [t|f]; [reflexivity|]. now rewrite (IH Hin).
Qed.

(** The area of the branch [r.ok] is a number. *)
Lemma ai_area_converts (out : Json) (i : Inference) :
  ai_estimate out = Ok i ->
  exists a, inf_area_sqft i = VNum a /\ js_Number (inf_area_sqft i) = Ok a.
Proof.
  intros H. destruct (ai_estimate_inv _ _ H) as (a & c & n & ->).
  eexists. split; reflexivity.
Qed.

(** The runs of the handler, case by case: the response and the effects of
    each. *)
Lemma POST_cases req env outcome :
  (exists err, formData req = Err err
               /\ POST req env outcome = (caught err, no_effects))
  \/ (exists fd, formData req = Ok fd
                 /\ FormData_getAll fd "images" = []
                 /\ POST req env outcome
                    = (mkResponse 400 (ErrorBody "No images uploaded"), no_effects))
  \/ (exists fd, formData req = Ok fd
                 /\ FormData_getAll fd "images" <> []
                 /\ unconfigured env
                 /\ POST req env outcome
                    = (mkResponse 500 (ErrorBody "Missing OPENAI_API_KEY on server"),
                       no_effects))
  \/ (exists fd key,
         formData req = Ok fd
         /\ FormData_getAll fd "images" <> []
         /\ configured env key
         /\ ((exists err, dataUrls_of (FormData_getAll fd "images") = Err err
                          /\ POST req env outcome = (caught err, no_effects))
             \/ exists urls,
                 dataUrls_of (FormData_getAll fd "images") = Ok urls
                 /\ ((exists err,
                         outcome = Err err
                         /\ POST req env outcome
                            = (caught err,
                               mkEffects [request_of key (service_of fd) urls] []))
                     \/ (exists r a x,
                            outcome = Ok r /\ ok r = false
                            /\ js_Number (inf_area_sqft (smart_estimate (service_of fd))) = Ok a
                            /\ js_Number (rate_of (service_of fd)) = Ok x
                            /\ POST req env outcome
                               = (mkResponse 200
                                    (EstimateBody
                                       (priced (service_of fd) (smart_estimate (service_of fd))
                                          (List.length urls) a x)),
                                  mkEffects [request_of key (service_of fd) urls]
                                    ["AI estimation failed, using Smart Estimator fallback"]))
                     \/ (exists r err,
                            outcome = Ok r /\ ok r = true /\ json r = Err err
                            /\ POST req env outcome
                               = (caught err,
                                  mkEffects [request_of key (service_of fd) urls] []))
                     \/ (exists r out err,
                            outcome = Ok r /\ ok r = true /\ json r = Ok out
                            /\ ai_estimate out = Err err
                            /\ POST req env outcome
                               = (caught err,
                                  mkEffects [request_of key (service_of fd) urls] []))
                     \/ (exists r out i a x,
                            outcome = Ok r /\ ok r = true /\ json r = Ok out
                            /\ ai_estimate out = Ok i
                            /\ inf_area_sqft i = VNum a
                            /\ js_Number (rate_of (service_of fd)) = Ok x
                            /\ POST req env outcome
                               = (mkResponse 200
                                    (EstimateBody (priced (service_of fd) i (List.length urls) a x)),
                                  mkEffects [request_of key (service_of fd) urls] []))))).
Proof.
  unfold POST, POST_try, bind, await.
  destruct (formData req) as [fd|err] eqn:Hfd; [|left; now exists err].
  right. cbv zeta.
  destruct (FormData_getAll fd "images") as [|v rest] eqn:Himg;
    [left; now exists fd|].
  right. cbn [List.length Nat.eqb].
  assert (Hne : v :: rest <> []) by discriminate.
  destruct (OPENAI_API_KEY env) as [[|c k]|] eqn:Hkey;
    [left; exists fd; rewrite Himg; split; [reflexivity|]; split; [exact Hne|];
     split; [now right|reflexivity]
    |
    |left; exists fd; rewrite Himg; split; [reflexivity|]; split; [exact Hne|];
     split; [now left|reflexivity]].
  right. exists fd, (String c k). rewrite Himg.
  split; [reflexivity|]. split; [exact Hne|].
  split; [split; [assumption|discriminate]|].
  unfold infer_and_quote, bind, await, fetch, console_log, ret, quote.
  destruct (dataUrls_of (v :: rest)) as [urls|err] eqn:Hurls;
    [|left; now exists err].
  right. exists urls. split; [reflexivity|].
  destruct outcome as [r|err]; [|left; now exists err].
  right. destruct (ok r) eqn:Hok; cbn [negb].
  - right. destruct (json r) as [out|err] eqn:Hjson; [|left; now exists r, err].
    right. destruct (ai_estimate out) as [i|err] eqn:Hai; [|left; now exists r, out, err].
    right. destruct (ai_area_converts _ _ Hai) as (a & Harea & Ha).
    destruct (rate_converts (service_of fd)) as (x & Hx).
    rewrite Ha. cbn [rbind]. rewrite Hx. exists r, out, i, a, x. now repeat split.
  - left. destruct (smart_area_converts (service_of fd)) as (a & Ha).
    destruct (rate_converts (service_of fd)) as (x & Hx).
    rewrite Ha. cbn [rbind]. rewrite Hx. exists r, a, x. now repeat split.
Qed.

Lemma error_text_not_empty (err : Exn) : error_text err <> "".
Proof.
  unfold error_text. destruct (String.eqb_spec (message err) ""); [discriminate|assumption].
Qed.

Lemma configured_unique env key key' :
  configured env key -> configured env key' -> key = key'.
Proof. intros [H _] [H' _]. congruence. Qed.

Lemma configured_not_unconfigured env key :
  configured env key -> unconfigured env -> False.
Proof. intros [H Hne] [H' | H']; congruence. Qed.

(** *** The call to the endpoint *)

(** X4. A run calls the endpoint at most once.  It calls it exactly when the
    form has at least one field [images], all of them files, and the key is
    set; the call is a POST to the chat completions URL of OpenAI, with a JSON
    content type and the key of the environment as bearer token. *)
Theorem call_is_made_once_with_the_key req env outcome :
  (forall fd key,
      has_images req fd -> configured env key ->
      exists rq,
        fetched (snd (POST req env outcome)) = [rq]
        /\ url rq = "https://api.openai.com/v1/chat/completions"
        /\ method rq = "POST"
        /\ headers rq = [("Content-Type", "application/json");
                         ("Authorization", "Bearer " ++ key)])
  /\ ((forall fd key, ~ (has_images req fd /\ configured env key)) ->
      fetched (snd (POST req env outcome)) = []).
Proof.
  destruct (POST_cases req env outcome)
    as [(err & Hfd & ->)
       | [(fd & Hfd & Himg & ->)
         | [(fd & Hfd & Himg & Hkey & ->)
           | (fd & key & Hfd & Himg & Hkey & Hrest)]]].
  - split; [|reflexivity]. intros fd key (Hfd' & _) _. congruence.
  - split; [|reflexivity]. intros fd' key (Hfd' & Himg' & _) _.
    assert (fd' = fd) by congruence. subst. contradiction.
  - split; [|reflexivity]. intros fd' key _ Hkey'.
    destruct (configured_not_unconfigured _ _ Hkey' Hkey).
  - destruct Hrest as [(err & Hurls & ->) | (urls & Hurls & Hrest)].
    + split; [|reflexivity]. intros fd' key' (Hfd' & _ & Hfiles) _.
      assert (fd' = fd) by congruence. subst.
      destruct (dataUrls_of_files _ Hfiles) as (u & Hu & _). congruence.
    + assert (Hcall : fetched (snd (POST req env outcome))
                      = [request_of key (service_of fd) urls]).
      { destruct Hrest as [(err & _ & ->)
                          | [(r & a & x & _ & _ & _ & _ & ->)
                            | [(r & err & _ & _ & _ & ->)
                              | [(r & out & err & _ & _ & _ & _ & ->)
                                | (r & out & i & a & x & _ & _ & _ & _ & _ & _ & ->)]]]];
          reflexivity. }
      split.
      * intros fd' key' _ Hkey'. rewrite (configured_unique _ _ _ Hkey' Hkey).
        eexists. split; [exact Hcall|]. repeat split.
      * intros Hnone. exfalso. apply (Hnone fd key). split; [|exact Hkey].
        repeat split; try assumption. apply (dataUrls_of_ok _ _ Hurls).
Qed.

(** *** The status of the response *)

(** X5. The status of a response is 200, 400 or 500.  It is 400 exactly when
    the form was read and has no field [images], and 200 exactly when the
    body is an estimate; an error body never has an empty error text. *)
Theorem status_of_every_run req env outcome :
  (status (fst (POST req env outcome)) = 200
   \/ status (fst (POST req env outcome)) = 400
   \/ status (fst (POST req env outcome)) = 500)%Z
  /\ (status (fst (POST req env outcome)) = 400%Z
      <-> exists fd, formData req = Ok fd /\ FormData_getAll fd "images" = [])
  /\ (status (fst (POST req env outcome)) = 200%Z
      <-> exists e, content (fst (POST req env outcome)) = EstimateBody e)
  /\ (forall msg, content (fst (POST req env outcome)) = ErrorBody msg -> msg <> "").
Proof.
  assert (Hcaught : forall err w,
             POST req env outcome = (mkResponse 500 (ErrorBody (error_text err)), w) ->
             (forall fd, formData req = Ok fd -> FormData_getAll fd "images" <> []) ->
             (status (fst (POST req env outcome)) = 200
              \/ status (fst (POST req env outcome)) = 400
              \/ status (fst (POST req env outcome)) = 500)%Z
             /\ (status (fst (POST req env outcome)) = 400%Z
                 <-> exists fd, formData req = Ok fd /\ FormData_getAll fd "images" = [])
             /\ (status (fst (POST req env outcome)) = 200%Z
                 <-> exists e, content (fst (POST req env outcome)) = EstimateBody e)
             /\ (forall msg, content (fst (POST req env outcome)) = ErrorBody msg ->
                             msg <> "")).
  { intros err w -> Himg. cbn [fst status content]. repeat split; auto; try discriminate.
    - intros (fd & Hfd & Hnone). destruct (Himg fd Hfd Hnone).
    - intros (e & [=]).
    - intros msg [= <-]. apply error_text_not_empty. }
  assert (Hquoted : forall e w,
             POST req env outcome = (mkResponse 200 (EstimateBody e), w) ->
             (forall fd, formData req = Ok fd -> FormData_getAll fd "images" <> []) ->
             (status (fst (POST req env outcome)) = 200
              \/ status (fst (POST req env outcome)) = 400
              \/ status (fst (POST req env outcome)) = 500)%Z
             /\ (status (fst (POST req env outcome)) = 400%Z
                 <-> exists fd, formData req = Ok fd /\ FormData_getAll fd "images" = [])
             /\ (status (fst (POST req env outcome)) = 200%Z
                 <-> exists e, content (fst (POST req env outcome)) = EstimateBody e)
             /\ (forall msg, content (fst (POST req env outcome)) = ErrorBody msg ->
                             msg <> "")).
  { intros e w -> Himg. cbn [fst status content]. repeat split; auto; try discriminate.
    - intros (fd & Hfd & Hnone). destruct (Himg fd Hfd Hnone).
    - intros _. now exists e. }
  destruct (POST_cases req env outcome)
    as [(err & Hfd & Hrun)
       | [(fd & Hfd & Himg & Hrun)
         | [(fd & Hfd & Himg & Hkey & Hrun)
           | (fd & key & Hfd & Himg & Hkey & Hrest)]]].
  - apply (Hcaught _ _ Hrun). intros fd Hfd'. congruence.
  - rewrite Hrun. cbn [fst status content]. repeat split; auto; try discriminate.
    + intros _. now exists fd.
    + intros (e & [=]).
    + intros msg [= <-]. discriminate.
  - rewrite Hrun. cbn [fst status content]. repeat split; auto; try discriminate.
    + intros (fd' & Hfd' & Hnone). assert (fd' = fd) by congruence. subst. contradiction.
    + intros (e & [=]).
    + intros msg [= <-]. discriminate.
  - assert (Hsome : forall fd', formData req = Ok fd' -> FormData_getAll fd' "images" <> []).
    { intros fd' Hfd'. assert (fd' = fd) by congruence. now subst. }
    destruct Hrest as [(err & _ & Hrun) | (urls & _ & Hrest)];
      [now apply (Hcaught _ _ Hrun)|].
    destruct Hrest as [(err & _ & Hrun)
                      | [(r & a & x & _ & _ & _ & _ & Hrun)
                        | [(r & err & _ & _ & _ & Hrun)
                          | [(r & out & err & _ & _ & _ & _ & Hrun)
                            | (r & out & i & a & x & _ & _ & _ & _ & _ & _ & Hrun)]]]].
    + now apply (Hcaught _ _ Hrun).
    + now apply (Hquoted _ _ Hrun).
    + now apply (Hcaught _ _ Hrun).
    + now apply (Hcaught _ _ Hrun).
    + now apply (Hquoted _ _ Hrun).
Qed.

(** *** Errors of the request *)

(** X6. A request whose body cannot be read as a form is answered 500 with the
    message of the error, or "Unexpected error" when it has none, and no call
    is made. *)
Theorem unreadable_form_is_500 req env outcome err :
  formData req = Err err ->
  POST req env outcome
  = (mkResponse 500
       (ErrorBody (if message err =? "" then "Unexpected error" else message err)),
     no_effects).
Proof.
  intros Hfd. unfold POST, POST_try, bind, await. now rewrite Hfd.
Qed.

(** X7. With the key set, a form in which some field [images] is a text and
    not a file is answered 500 with the error of the method call that fails,
    and no call is made to the endpoint, whatever the other fields are. *)
Theorem text_among_images_is_500 req env outcome fd key s :
  formData req = Ok fd ->
  configured env key ->
  In (EntryString s) (FormData_getAll fd "images") ->
  POST req env outcome
  = (mkResponse 500 (ErrorBody "f.arrayBuffer is not a function"), no_effects).
Proof.
  intros Hfd Hkey Hin.
  assert (Himg : FormData_getAll fd "images" <> [])
    by (intros E; rewrite E in Hin; destruct Hin).
  unfold POST. rewrite (POST_try_checked req env outcome fd key Hfd Himg Hkey).
  unfold infer_and_quote, bind, await. now rewrite (dataUrls_of_text _ _ Hin).
Qed.

(** *** What a 200 response echoes *)

(** A 200 response, read back: the form, the key, the data URLs, the
    effects, and the inference that was priced. *)
Lemma POST_200_inv req env outcome e :
  fst (POST req env outcome) = mkResponse 200 (EstimateBody e) ->
  exists fd key urls r i a x,
    formData req = Ok fd
    /\ configured env key
    /\ dataUrls_of (FormData_getAll fd "images") = Ok urls
    /\ outcome = Ok r
    /\ js_Number (inf_area_sqft i) = Ok a
    /\ js_Number (rate_of (service_of fd)) = Ok x
    /\ e = priced (service_of fd) i (List.length urls) a x
    /\ ((ok r = false /\ i = smart_estimate (service_of fd)
         /\ snd (POST req env outcome)
            = mkEffects [request_of key (service_of fd) urls]
                ["AI estimation failed, using Smart Estimator fallback"])
        \/ (exists out, ok r = true /\ json r = Ok out /\ ai_estimate out = Ok i
                        /\ snd (POST req env outcome)
                           = mkEffects [request_of key (service_of fd) urls] [])).
Proof.
  destruct (POST_cases req env outcome)
    as [(err & _ & ->)
       | [(fd & _ & _ & ->)
         | [(fd & _ & _ & _ & ->)
           | (fd & key & Hfd & Himg & Hkey & Hrest)]]]; try discriminate.
  destruct Hrest as [(err & _ & ->) | (urls & Hurls & Hrest)]; [discriminate|].
  destruct Hrest as [(err & _ & ->)
                    | [(r & a & x & Hout & Hok & Ha & Hx & ->)
                      | [(r & err & _ & _ & _ & ->)
                        | [(r & out & err & _ & _ & _ & _ & ->)
                          | (r & out & i & a & x & Hout & Hok & Hjson & Hai & Harea & Hx & ->)]]]];
    try discriminate; cbn [fst snd]; intros [= <-].
  - exists fd, key, urls, r, (smart_estimate (service_of fd)), a, x.
    repeat match goal with |- _ /\ _ => split end; try assumption; try reflexivity.
    left. now repeat split.
  - exists fd, key, urls, r, i, a, x.
    repeat match goal with |- _ /\ _ => split end; try assumption; try reflexivity.
    + now rewrite Harea.
    + right. exists out. now repeat split.
Qed.

(** X8. In a 200 response, [images_analyzed] is the number of fields [images]
    of the form and the number of image parts sent to the endpoint, and the
    service echoed is the service named in the prompt that was sent. *)
Theorem response_echoes_the_request req env outcome e :
  fst (POST req env outcome) = mkResponse 200 (EstimateBody e) ->
  exists fd key urls,
    formData req = Ok fd
    /\ images_analyzed e = List.length (FormData_getAll fd "images")
    /\ images_analyzed e = List.length urls
    /\ fetched (snd (POST req env outcome)) = [request_of key (service e) urls].
Proof.
  intros H.
  destruct (POST_200_inv _ _ _ _ H)
    as (fd & key & urls & r & i & a & x & Hfd & _ & Hurls & _ & _ & _ & -> & Hw).
  exists fd, key, urls. cbn [images_analyzed service priced].
  split; [exact Hfd|]. split; [apply (dataUrls_of_ok _ _ Hurls)|]. split; [reflexivity|].
  destruct Hw as [(_ & _ & ->) | (out & _ & _ & _ & ->)]; reflexivity.
Qed.

(** X9. The method of a 200 response follows the response of the endpoint:
    "smart", with complexity 2.5, the fixed notes and one line on the console,
    when the endpoint answered but not OK; "ai", with nothing on the console,
    when it answered OK. *)
Theorem method_follows_the_response req env outcome e :
  fst (POST req env outcome) = mkResponse 200 (EstimateBody e) ->
  exists r,
    outcome = Ok r
    /\ ((ok r = false
         /\ estimation_method e = "smart"
         /\ complexity e = 2.5%float
         /\ notes e = "Smart Estimator used - AI analysis temporarily unavailable. Estimate based on typical property size for this service type."
         /\ logged (snd (POST req env outcome))
            = ["AI estimation failed, using Smart Estimator fallback"])
        \/ (ok r = true
            /\ estimation_method e = "ai"
            /\ logged (snd (POST req env outcome)) = [])).
Proof.
  intros H.
  destruct (POST_200_inv _ _ _ _ H)
    as (fd & key & urls & r & i & a & x & _ & _ & _ & Hout & _ & _ & -> & Hw).
  exists r. split; [exact Hout|]. cbn [estimation_method complexity notes priced].
  destruct Hw as [(Hok & -> & ->) | (out & Hok & _ & Hai & ->)].
  - left. now repeat split.
  - right. destruct (ai_estimate_inv _ _ Hai) as (a' & c & n & ->). now repeat split.
Qed.

(** *** The fields of the model's answer *)

(** What the branch [r.ok] reads when the content is a JSON object. *)
Lemma ai_estimate_of_object out c props i :
  message_content (VJson out) = Ok c ->
  truthy c = true ->
  js_JSON_parse c = Ok (JObj props) ->
  ai_estimate out = Ok i ->
  exists a x n,
    js_Number (js_or (object_get VJson props "area_sqft") (VNum 0)) = Ok a
    /\ js_Number (js_or (object_get VJson props "complexity") (VNum 2.5)) = Ok x
    /\ js_String (js_or (object_get VJson props "notes") (VStr default_notes)) = Ok n
    /\ i = mkInference (VNum (Num.Math_max 0 a)) (Num.Math_min 5 (Num.Math_max 1 x)) n "ai".
Proof.
  intros Hc Ht Hparse.
  assert (Hparsed : parse_or_empty (js_or c (VStr "{}")) = JObj props).
  { unfold js_or. rewrite Ht. unfold parse_or_empty. now rewrite Hparse. }
  unfold ai_estimate. rewrite Hc. cbn [rbind]. cbv zeta. rewrite Hparsed.
  cbn [js_get rbind].
  destruct (js_Number (js_or (object_get VJson props "area_sqft") (VNum 0))) as [a|];
    cbn [rbind]; [|intros [=]].
  destruct (js_Number (js_or (object_get VJson props "complexity") (VNum 2.5))) as [x|];
    cbn [rbind]; [|intros [=]].
  destruct (js_String (js_or (object_get VJson props "notes") (VStr default_notes))) as [n|];
    cbn [rbind]; [|intros [=]].
  intros [= <-]. now exists a, x, n.
Qed.

(** A 200 response to an OK answer carries the inference of [ai_estimate]. *)
Lemma ai_response_inv req env outcome r out e :
  outcome = Ok r ->
  ok r = true ->
  json r = Ok out ->
  fst (POST req env outcome) = mkResponse 200 (EstimateBody e) ->
  exists i, ai_estimate out = Ok i
            /\ area_sqft e = inf_area_sqft i
            /\ complexity e = inf_complexity i
            /\ notes e = inf_notes i.
Proof.
  intros Hout Hok Hjson H.
  destruct (POST_200_inv _ _ _ _ H)
    as (fd & key & urls & r' & i & a & x & _ & _ & _ & Hout' & _ & _ & -> & Hw).
  assert (r' = r) by congruence. subst r'.
  destruct Hw as [(Hok' & _) | (out' & _ & Hjson' & Hai & _)]; [congruence|].
  assert (out' = out) by congruence. subst out'.
  exists i. now repeat split.
Qed.

Lemma zero_not_above (a : float) : is_zero a = true -> (0 <? a)%float = false.
Proof.
  unfold is_zero, PrimFloat.zero. rewrite FloatAxioms.eqb_spec, ltb_spec.
  unfold SFeqb, SFltb.
  destruct (SFcompare (Prim2SF a) (Prim2SF 0)) as [c|] eqn:Hc; [|intros [=]].
  rewrite (NumFacts.SFcompare_antisym _ _ _ Hc). now destruct c.
Qed.

(** X10. When the content of the message is a JSON object and the response is
    200, a complexity that is a number other than 0 and NaN is echoed as the
    bound 1 when it is below 1, as the bound 5 when it is above 5, and as it
    is in between; an area that is a number other than NaN is echoed as it is
    when it is above 0, and as 0 otherwise. *)
Theorem numeric_fields_are_bounded req env outcome r out c props e :
  outcome = Ok r ->
  ok r = true ->
  json r = Ok out ->
  message_content (VJson out) = Ok c ->
  truthy c = true ->
  js_JSON_parse c = Ok (JObj props) ->
  fst (POST req env outcome) = mkResponse 200 (EstimateBody e) ->
  (forall x, own_property props "complexity" = Some (JNum x) ->
             is_nan x = false -> is_zero x = false ->
             complexity e = if (x <? 1)%float then 1%float
                            else if (5 <? x)%float then 5%float else x)
  /\ (forall a, own_property props "area_sqft" = Some (JNum a) ->
                is_nan a = false ->
                area_sqft e = VNum (if (0 <? a)%float then a else 0%float)).
Proof.
  intros Hout Hok Hjson Hc Ht Hparse H.
  destruct (ai_response_inv _ _ _ _ _ _ Hout Hok Hjson H) as (i & Hai & -> & -> & _).
  destruct (ai_estimate_of_object _ _ _ _ Hc Ht Hparse Hai)
    as (a & x & n & Ha & Hx & _ & ->).
  cbn [inf_area_sqft inf_complexity]. split.
  - intros x' Hown Hnan Hzero. revert Hx. unfold object_get. rewrite Hown.
    unfold js_or, truthy. rewrite Hzero, Hnan. cbn [orb negb js_Number ToNumber_json].
    intros [= <-]. now apply NumBounds.clamp_value.
  - intros a' Hown Hnan. revert Ha. unfold object_get. rewrite Hown.
    unfold js_or, truthy. rewrite Hnan, orb_false_r.
    destruct (is_zero a') eqn:Hzero; cbn [negb js_Number ToNumber_json VNum].
    + intros [= <-]. now rewrite (zero_not_above _ Hzero).
    + intros [= <-]. now rewrite (NumBounds.max0_value _ Hnan).
Qed.

(** X11. When the content of the message is a JSON object and the response is
    200, a field that is falsy (missing, [null], [false], 0 or the empty
    text) gets its default: complexity 2.5 (a complexity 0 is not raised to
    the bound 1), area 0, and the default notes. *)
Theorem falsy_fields_get_defaults req env outcome r out c props e :
  outcome = Ok r ->
  ok r = true ->
  json r = Ok out ->
  message_content (VJson out) = Ok c ->
  truthy c = true ->
  js_JSON_parse c = Ok (JObj props) ->
  fst (POST req env outcome) = mkResponse 200 (EstimateBody e) ->
  (truthy (object_get VJson props "complexity") = false -> complexity e = 2.5%float)
  /\ (truthy (object_get VJson props "area_sqft") = false -> area_sqft e = VNum 0)
  /\ (truthy (object_get VJson props "notes") = false ->
      notes e = "AI-computed from uploaded photos.")
  /\ (own_property props "complexity" = None -> complexity e = 2.5%float)
  /\ (own_property props "complexity" = Some (JNum 0) -> complexity e = 2.5%float).
Proof.
  intros Hout Hok Hjson Hc Ht Hparse H.
  destruct (ai_response_inv _ _ _ _ _ _ Hout Hok Hjson H) as (i & Hai & -> & -> & ->).
  destruct (ai_estimate_of_object _ _ _ _ Hc Ht Hparse Hai)
    as (a & x & n & Ha & Hx & Hn & ->).
  cbn [inf_area_sqft inf_complexity inf_notes].
  assert (Hcx : truthy (object_get VJson props "complexity") = false ->
                Num.Math_min 5 (Num.Math_max 1 x) = 2.5%float).
  { intros Hf. revert Hx. unfold js_or. rewrite Hf. now intros [= <-]. }
  repeat split.
  - exact Hcx.
  - intros Hf. revert Ha. unfold js_or. rewrite Hf. now intros [= <-].
  - intros Hf. revert Hn. unfold js_or. rewrite Hf. now intros [= <-].
  - intros Hown. apply Hcx. unfold object_get. now rewrite Hown.
  - intros Hown. apply Hcx. unfold object_get. now rewrite Hown.
Qed.

(** X12. Content that is a JSON document but no object.  With image files
    and the key set, when the content of the message parses to [null] the
    read of its first field throws and the response is 500; when it parses to
    a boolean, a number, a text or an array the fields are missing and the
    response is 200 with the defaults: area 0, complexity 2.5, the default
    notes, method "ai". *)
Theorem content_that_is_no_object req env outcome fd key r out c j :
  has_images req fd ->
  configured env key ->
  outcome = Ok r ->
  ok r = true ->
  json r = Ok out ->
  message_content (VJson out) = Ok c ->
  truthy c = true ->
  js_JSON_parse c = Ok j ->
  (j = JNull ->
   fst (POST req env outcome)
   = mkResponse 500 (ErrorBody "Cannot read properties of null (reading 'area_sqft')"))
  /\ (j <> JNull -> (forall props, j <> JObj props) ->
      exists e,
        fst (POST req env outcome) = mkResponse 200 (EstimateBody e)
        /\ area_sqft e = VNum 0
        /\ complexity e = 2.5%float
        /\ notes e = "AI-computed from uploaded photos."
        /\ estimation_method e = "ai").
Proof.
  intros (Hfd & Himg & Hfiles) Hkey Hout Hok Hjson Hc Ht Hparse.
  assert (Hparsed : parse_or_empty (js_or c (VStr "{}")) = j).
  { unfold js_or. rewrite Ht. unfold parse_or_empty. now rewrite Hparse. }
  destruct (dataUrls_of_files _ Hfiles) as (urls & Hurls & _).
  assert (Hrun : POST req env outcome
                 = match ai_estimate out with
                   | Ok i =>
                       match quote (service_of fd) i (List.length urls) with
                       | Ok e => (mkResponse 200 (EstimateBody e),
                                  mkEffects [request_of key (service_of fd) urls] [])
                       | Err err => (mkResponse 500 (ErrorBody (error_text err)),
                                     mkEffects [request_of key (service_of fd) urls] [])
                       end
                   | Err err => (mkResponse 500 (ErrorBody (error_text err)),
                                 mkEffects [request_of key (service_of fd) urls] [])
                   end).
  { unfold POST. rewrite (POST_try_checked req env outcome fd key Hfd Himg Hkey).
    unfold infer_and_quote, bind, await, fetch, ret.
    rewrite Hurls, Hout, Hok, Hjson. cbn [negb].
    destruct (ai_estimate out) as [i|err]; [|reflexivity].
    now destruct (quote (service_of fd) i (List.length urls)). }
  rewrite Hrun. unfold ai_estimate. rewrite Hc. cbn [rbind]. cbv zeta. rewrite Hparsed.
  split.
  - intros ->. reflexivity.
  - intros Hnull Hobj. destruct (rate_converts (service_of fd)) as (x & Hx).
    destruct j as [|b|y|s|items|props];
      [congruence| | | | |destruct (Hobj props eq_refl)];
      cbn -[quote]; unfold quote; cbn [inf_area_sqft js_Number VNum ToNumber_json rbind];
      rewrite Hx; eexists; repeat split.
Qed.

(** X13. An OK response that cannot be read.  With image files and the key
    set, when the endpoint answers OK but [r.json()] rejects, the response is
    500 with the message of that error; when the JSON document is [null], the
    read of [choices] throws and the response is 500.  In both cases the one
    call was made and nothing is written to the console. *)
Theorem unreadable_answer_is_500 req env outcome fd key r :
  has_images req fd ->
  configured env key ->
  outcome = Ok r ->
  ok r = true ->
  (forall err, json r = Err err ->
     fst (POST req env outcome) = mkResponse 500 (ErrorBody (error_text err))
     /\ List.length (fetched (snd (POST req env outcome))) = 1%nat
     /\ logged (snd (POST req env outcome)) = [])
  /\ (json r = Ok JNull ->
      fst (POST req env outcome)
      = mkResponse 500 (ErrorBody "Cannot read properties of null (reading 'choices')")
      /\ List.length (fetched (snd (POST req env outcome))) = 1%nat
      /\ logged (snd (POST req env outcome)) = []).
Proof.
  intros (Hfd & Himg & Hfiles) Hkey Hout Hok.
  destruct (dataUrls_of_files _ Hfiles) as (urls & Hurls & _).
  unfold POST. rewrite (POST_try_checked req env outcome fd key Hfd Himg Hkey).
  unfold infer_and_quote, bind, await, fetch, ret.
  rewrite Hurls, Hout, Hok. cbn [negb].
  split.
  - intros err ->. now repeat split.
  - intros ->. now repeat split.
Qed.

(** *** The minimum fee *)

(** X14. The floor of the price.  In a 200 response, when the product of the
    area, the rate and the complexity factor (the area and the rate as the
    numbers they are in the product) is below [MIN_JOB_FEE] the total
    is [MIN_JOB_FEE] rounded to cents, whatever the product is; when the
    product is above [MIN_JOB_FEE] the total is the product rounded to
    cents. *)
Theorem total_has_a_floor req env outcome e a x :
  fst (POST req env outcome) = mkResponse 200 (EstimateBody e) ->
  js_Number (area_sqft e) = Ok a ->
  js_Number (rate e) = Ok x ->
  ((a * x * complexity_factor e <? MIN_JOB_FEE)%float = true ->
   total e = (Num.Math_round (MIN_JOB_FEE * 100) / 100)%float)
  /\ ((MIN_JOB_FEE <? a * x * complexity_factor e)%float = true ->
      total e = (Num.Math_round (a * x * complexity_factor e * 100) / 100)%float).
Proof.
  intros H.
  destruct (POST_200_inv _ _ _ _ H)
    as (fd & key & urls & r & i & a' & x' & _ & _ & _ & _ & Ha' & Hx' & -> & _).
  cbn [area_sqft rate complexity_factor total priced]. intros Ha Hx.
  assert (a' = a) by congruence. subst a'.
  assert (x' = x) by congruence. subst x'.
  unfold round_cents. split; intros Hp.
  - now rewrite (NumBounds.Math_max_below _ _ Hp).
  - now rewrite (NumBounds.Math_max_above _ _ Hp).
Qed.

(** *** The rate *)

(** X17. The rate and the total, service by service.  In a 200 response for a
    service that is not the name of a member of [Object.prototype], the rate
    is the entry of the rate table for the service, or 0.15 when the table
    has none; the complexity factor is [COMPLEXITY_MULTIPLIER] at the
    complexity of the response, and the total is the larger of [MIN_JOB_FEE]
    and the product of the area, the rate and the complexity factor, rounded
    by [Math.round(x * 100) / 100]. *)
Theorem rate_by_service req env outcome e :
  fst (POST req env outcome) = mkResponse 200 (EstimateBody e) ->
  ~ In (service e) ("__proto__" :: Object_prototype_methods) ->
  exists x a,
    rate e = VNum x
    /\ x = match own_property SERVICE_RATES_PER_SQFT (service e) with
           | Some y => y
           | None => 0.15%float
           end
    /\ js_Number (area_sqft e) = Ok a
    /\ complexity_factor e = COMPLEXITY_MULTIPLIER (complexity e)
    /\ total e
       = (Num.Math_round (Num.Math_max MIN_JOB_FEE (a * x * complexity_factor e) * 100)
          / 100)%float.
Proof.
  intros H.
  destruct (POST_200_inv _ _ _ _ H)
    as (fd & key & urls & r & i & a & x & _ & _ & _ & _ & Ha & Hx & -> & _).
  cbn [service rate area_sqft complexity complexity_factor total priced].
  intros Hin. exists x, a.
  assert (Hr : rate_of (service_of fd)
               = VNum match own_property SERVICE_RATES_PER_SQFT (service_of fd) with
                      | Some y => y
                      | None => 0.15%float
                      end).
  { unfold rate_of, object_get.
    destruct (own_property SERVICE_RATES_PER_SQFT (service_of fd)) as [y|];
      [reflexivity|].
    now rewrite (Object_prototype_get_other _ Hin). }
  rewrite Hr in Hx. injection Hx as <-.
  repeat split; assumption.
Qed.

End Coverage.

(** ** Base64 keeps the bytes *)

From Stdlib Require Import NArith Lia.

Section Base64Facts.

Lemma list_ind3 {A : Type} (P : list A -> Prop) :
  P [] ->
  (forall a, P [a]) ->
  (forall a b, P [a; b]) ->
  (forall a b c l, P l -> P (a :: b :: c :: l)) ->
  forall l, P l.
Proof.
  intros H0 H1 H2 H3.
  assert (H : forall l, P l /\ (forall a, P (a :: l)) /\ (forall a b, P (a :: b :: l))).
  { induction l as [|x l (IH0 & IH1 & IH2)].
    - now repeat split.
    - split; [apply IH1|]. split; [intros a; apply IH2|].
      intros a b. apply H3, IH0. }
  intros l. apply H.
Qed.

(** The text of a digit is one character of the alphabet. *)
Lemma base64_digit_cons (n : N) (s : string) :
  base64_digit n ++ s = String (nth (N.to_nat n) base64_alphabet "="%char) s.
Proof. reflexivity. Qed.

(** The 64 digits are different characters, none of them the padding. *)
Lemma base64_alphabet_distinct (i j : nat) :
  (i < 64)%nat -> (j < 64)%nat ->
  nth i base64_alphabet "="%char = nth j base64_alphabet "="%char -> i = j.
Proof.
  intros Hi Hj.
  assert (Hall : forallb (fun i => forallb (fun j =>
                    implb (Ascii.eqb (nth i base64_alphabet "="%char)
                                     (nth j base64_alphabet "="%char))
                          (Nat.eqb i j)) (seq 0 64)) (seq 0 64) = true)
    by (vm_compute; reflexivity).
  rewrite forallb_forall in Hall.
  assert (Hi' : In i (seq 0 64)) by (apply in_seq; split; [apply Nat.le_0_l|exact Hi]).
  assert (Hj' : In j (seq 0 64)) by (apply in_seq; split; [apply Nat.le_0_l|exact Hj]).
  specialize (Hall i Hi'). rewrite forallb_forall in Hall. specialize (Hall j Hj').
  intros E. rewrite E, Ascii.eqb_refl in Hall. now apply Nat.eqb_eq.
Qed.

Lemma base64_alphabet_no_padding (i : nat) :
  (i < 64)%nat -> nth i base64_alphabet "="%char <> "="%char.
Proof.
  intros Hi.
  assert (Hall : forallb (fun i => negb (Ascii.eqb (nth i base64_alphabet "="%char) "="%char))
                   (seq 0 64) = true)
    by (vm_compute; reflexivity).
  rewrite forallb_forall in Hall.
  assert (Hi' : In i (seq 0 64)) by (apply in_seq; split; [apply Nat.le_0_l|exact Hi]).
  specialize (Hall i Hi'). intros E. rewrite E, Ascii.eqb_refl in Hall. discriminate.
Qed.

Lemma digit_char_inj (n m : N) :
  (n < 64)%N -> (m < 64)%N ->
  nth (N.to_nat n) base64_alphabet "="%char = nth (N.to_nat m) base64_alphabet "="%char ->
  n = m.
Proof.
  intros Hn Hm E. apply N2Nat.inj. apply base64_alphabet_distinct; [| |exact E].
  - lia.
  - lia.
Qed.

Lemma digit_char_no_padding (n : N) :
  (n < 64)%N -> nth (N.to_nat n) base64_alphabet "="%char <> "="%char.
Proof.
  intros Hn. apply base64_alphabet_no_padding. lia.
Qed.

Lemma byte_lt_256 (b : Byte.byte) : (Byte.to_N b < 256)%N.
Proof. pose proof (Byte.to_N_bounded b). lia. Qed.

Lemma byte_to_N_inj (a b : Byte.byte) : Byte.to_N a = Byte.to_N b -> a = b.
Proof.
  intros E. pose proof (Byte.of_to_N a) as Ha. rewrite E, Byte.of_to_N in Ha. congruence.
Qed.

Ltac divmod x k :=
  let q := fresh "q" in
  let r := fresh "r" in
  pose proof (N.div_mod' x k); pose proof (N.mod_lt x k ltac:(discriminate));
  set (q := (x / k)%N) in *; set (r := (x mod k)%N) in *; clearbody q r.

(** The digits of one, two and three bytes give the bytes back. *)
Lemma sextets_inj1 (a a' : N) :
  (a < 256 -> a' < 256 ->
   a / 4 = a' / 4 -> a mod 4 * 16 = a' mod 4 * 16 -> a = a')%N.
Proof. intros Ha Ha'. divmod a 4%N. divmod a' 4%N. lia. Qed.

Lemma sextets_inj2 (a b a' b' : N) :
  (a < 256 -> b < 256 -> a' < 256 -> b' < 256 ->
   a / 4 = a' / 4 ->
   a mod 4 * 16 + b / 16 = a' mod 4 * 16 + b' / 16 ->
   b mod 16 * 4 = b' mod 16 * 4 ->
   a = a' /\ b = b')%N.
Proof.
  intros Ha Hb Ha' Hb'.
  divmod a 4%N. divmod a' 4%N. divmod b 16%N. divmod b' 16%N. lia.
Qed.

Lemma sextets_inj3 (a b c a' b' c' : N) :
  (a < 256 -> b < 256 -> c < 256 -> a' < 256 -> b' < 256 -> c' < 256 ->
   a / 4 = a' / 4 ->
   a mod 4 * 16 + b / 16 = a' mod 4 * 16 + b' / 16 ->
   b mod 16 * 4 + c / 64 = b' mod 16 * 4 + c' / 64 ->
   c mod 64 = c' mod 64 ->
   a = a' /\ b = b' /\ c = c')%N.
Proof.
  intros Ha Hb Hc Ha' Hb' Hc'.
  divmod a 4%N. divmod a' 4%N. divmod b 16%N. divmod b' 16%N.
  divmod c 64%N. divmod c' 64%N. lia.
Qed.

Lemma sextet_bounds (a b c : N) :
  (a < 256 -> b < 256 -> c < 256 ->
   a / 4 < 64 /\ a mod 4 * 16 + b / 16 < 64 /\ b mod 16 * 4 + c / 64 < 64
   /\ c mod 64 < 64 /\ a mod 4 * 16 < 64 /\ b mod 16 * 4 < 64)%N.
Proof.
  intros Ha Hb Hc. divmod a 4%N. divmod b 16%N. divmod c 64%N. lia.
Qed.

Local Notation "'digit' n" := (nth (N.to_nat n) base64_alphabet "="%char)
  (at level 10, n at level 9).

Lemma base64_1 (a : Byte.byte) :
  base64 [a]
  = String (digit (Byte.to_N a / 4))
      (String (digit (Byte.to_N a mod 4 * 16)) "==").
Proof. reflexivity. Qed.

Lemma base64_2 (a b : Byte.byte) :
  base64 [a; b]
  = String (digit (Byte.to_N a / 4))
      (String (digit (Byte.to_N a mod 4 * 16 + Byte.to_N b / 16))
         (String (digit (Byte.to_N b mod 16 * 4)) "=")).
Proof. reflexivity. Qed.

Lemma base64_3 (a b c : Byte.byte) (rest : list Byte.byte) :
  base64 (a :: b :: c :: rest)
  = String (digit (Byte.to_N a / 4))
      (String (digit (Byte.to_N a mod 4 * 16 + Byte.to_N b / 16))
         (String (digit (Byte.to_N b mod 16 * 4 + Byte.to_N c / 64))
            (String (digit (Byte.to_N c mod 64)) (base64 rest)))).
Proof. reflexivity. Qed.

(** X15. The Base64 text of [n] bytes has [4 * ceil (n / 3)] characters. *)
Theorem base64_length (bytes : list Byte.byte) :
  String.length (base64 bytes) = (4 * ((List.length bytes + 2) / 3))%nat.
Proof.
  induction bytes as [|a|a b|a b c rest IH] using list_ind3; try reflexivity.
  rewrite base64_3. cbn [String.length List.length]. rewrite IH.
  replace (S (S (S (List.length rest))) + 2)%nat
    with (1 * 3 + (List.length rest + 2))%nat by lia.
  rewrite Nat.div_add_l by discriminate. lia.
Qed.

(** Base64 loses nothing: byte sequences with the same text are the same. *)
Lemma base64_inj (bytes1 bytes2 : list Byte.byte) :
  base64 bytes1 = base64 bytes2 -> bytes1 = bytes2.
Proof.
  revert bytes2.
  induction bytes1 as [|a|a b|a b c rest IH] using list_ind3;
    intros [|a' [|b' [|c' rest']]];
    rewrite ?base64_1, ?base64_2, ?base64_3; try discriminate; try reflexivity;
    pose proof (byte_lt_256 a) as Ha; pose proof (byte_lt_256 a') as Ha';
    try (pose proof (byte_lt_256 b) as Hb);
    try (pose proof (byte_lt_256 b') as Hb');
    try (pose proof (byte_lt_256 c) as Hc);
    try (pose proof (byte_lt_256 c') as Hc').
  - (* one byte, one byte *)
    destruct (sextet_bounds _ 0 0 Ha eq_refl eq_refl) as (B1 & _ & _ & _ & B2 & _).
    destruct (sextet_bounds _ 0 0 Ha' eq_refl eq_refl) as (B1' & _ & _ & _ & B2' & _).
    intros [= E1 E2].
    apply digit_char_inj in E1; [|assumption..]. apply digit_char_inj in E2; [|assumption..].
    f_equal. apply byte_to_N_inj. now apply sextets_inj1.
  - (* one byte, two bytes: a padding against a digit *)
    destruct (sextet_bounds _ _ 0 Ha' Hb' eq_refl) as (_ & _ & _ & _ & _ & B).
    intros [= _ _ E]. symmetry in E. now apply digit_char_no_padding in E.
  - (* one byte, three or more *)
    destruct (sextet_bounds _ _ _ Ha' Hb' Hc') as (_ & _ & B & _).
    intros [= _ _ E]. symmetry in E. now apply digit_char_no_padding in E.
  - (* two bytes, one byte *)
    destruct (sextet_bounds _ _ 0 Ha Hb eq_refl) as (_ & _ & _ & _ & _ & B).
    intros [= _ _ E]. now apply digit_char_no_padding in E.
  - (* two bytes, two bytes *)
    destruct (sextet_bounds _ _ 0 Ha Hb eq_refl) as (B1 & B2 & _ & _ & _ & B3).
    destruct (sextet_bounds _ _ 0 Ha' Hb' eq_refl) as (B1' & B2' & _ & _ & _ & B3').
    intros [= E1 E2 E3].
    apply digit_char_inj in E1; [|assumption..]. apply digit_char_inj in E2; [|assumption..].
    apply digit_char_inj in E3; [|assumption..].
    destruct (sextets_inj2 _ _ _ _ Ha Hb Ha' Hb' E1 E2 E3) as [Ea Eb].
    apply byte_to_N_inj in Ea, Eb. now subst.
  - (* two bytes, three or more *)
    destruct (sextet_bounds _ _ _ Ha' Hb' Hc') as (_ & _ & _ & B & _).
    intros [= _ _ _ E]. symmetry in E. now apply digit_char_no_padding in E.
  - (* three or more, one byte *)
    destruct (sextet_bounds _ _ _ Ha Hb Hc) as (_ & _ & B & _).
    intros [= _ _ E]. now apply digit_char_no_padding in E.
  - (* three or more, two bytes *)
    destruct (sextet_bounds _ _ _ Ha Hb Hc) as (_ & _ & _ & B & _).
    intros [= _ _ _ E]. now apply digit_char_no_padding in E.
  - (* three or more, three or more *)
    destruct (sextet_bounds _ _ _ Ha Hb Hc) as (B1 & B2 & B3 & B4 & _).
    destruct (sextet_bounds _ _ _ Ha' Hb' Hc') as (B1' & B2' & B3' & B4' & _).
    intros [= E1 E2 E3 E4 Erest].
    apply digit_char_inj in E1; [|assumption..]. apply digit_char_inj in E2; [|assumption..].
    apply digit_char_inj in E3; [|assumption..]. apply digit_char_inj in E4; [|assumption..].
    destruct (sextets_inj3 _ _ _ _ _ _ Ha Hb Hc Ha' Hb' Hc' E1 E2 E3 E4) as (Ea & Eb & Ec).
    apply byte_to_N_inj in Ea, Eb, Ec. subst. f_equal. f_equal. f_equal. now apply IH.
Qed.

Lemma append_cancel_l (s x y : string) : s ++ x = s ++ y -> x = y.
Proof. induction s as [|c s IH]; simpl; [auto|]. intros [= E]. auto. Qed.

(** X16. The data URLs keep the images: two lists of files of the same types,
    position by position, that give the same data URLs have the same bytes,
    position by position. *)
Theorem data_urls_keep_the_bytes (files1 files2 : list File) :
  map file_type files1 = map file_type files2 ->
  dataUrls_of (map EntryFile files1) = dataUrls_of (map EntryFile files2) ->
  map file_bytes files1 = map file_bytes files2.
Proof.
  revert files2. induction files1 as [|f1 files1 IH]; intros [|f2 files2];
    cbn [map]; try discriminate; [reflexivity|].
  intros [= Htype Htypes]. cbn [dataUrls_of]. rewrite Htype.
  destruct (dataUrls_of (map EntryFile files1)) as [u1|e1] eqn:H1;
    destruct (dataUrls_of (map EntryFile files2)) as [u2|e2] eqn:H2;
    cbn [rbind]; try discriminate.
  - intros [= Hurl Hrest]. apply append_cancel_l in Hurl. injection Hurl as Hurl.
    apply base64_inj in Hurl. rewrite Hurl. f_equal.
    apply IH; [exact Htypes|]. congruence.
  - intros _. exfalso. clear -H2. induction files2 as [|f files2 IH2]; [discriminate|].
    cbn [map dataUrls_of] in H2.
    destruct (dataUrls_of (map EntryFile files2)); [discriminate|]. now apply IH2.
Qed.

End Base64Facts.

(** ** More properties at the examples *)

(** X6 at a request whose body is no form. *)
Lemma unreadable_form_is_500_witness :
  Edge.run Edge.no_form Sample.env_with_key Sample.unavailable
  = (mkResponse 500
       (ErrorBody "Content-Type was not one of multipart/form-data or application/x-www-form-urlencoded."),
     no_effects).
Proof.
  exact (@unreadable_form_is_500 Edge.runtime Sample.pricing Edge.no_form
           Sample.env_with_key Sample.unavailable _ eq_refl).
Defined.

(** X7 at a form whose second field [images] is a text. *)
Lemma text_among_images_is_500_witness :
  Edge.run (Sample.request Edge.form_with_text) Sample.env_with_key Sample.unavailable
  = (mkResponse 500 (ErrorBody "f.arrayBuffer is not a function"), no_effects).
Proof.
  apply (@text_among_images_is_500 Edge.runtime Sample.pricing
           (Sample.request Edge.form_with_text) Sample.env_with_key Sample.unavailable
           Edge.form_with_text "sk-test" "front.jpg").
  - reflexivity.
  - split; [reflexivity|discriminate].
  - right. left. reflexivity.
Defined.

(** X8 at the fallback for a form with one image. *)
Lemma response_echoes_the_request_witness :
  exists fd key urls,
    formData (Sample.request (Sample.form "roof")) = Ok fd
    /\ 1%nat = List.length (FormData_getAll fd "images")
    /\ 1%nat = List.length urls
    /\ fetched (snd (Sample.run (Sample.request (Sample.form "roof")) Sample.env_with_key
                       Sample.unavailable))
       = [request_of key "roof" urls].
Proof.
  exact (@response_echoes_the_request Sample.runtime Sample.pricing
           (Sample.request (Sample.form "roof")) Sample.env_with_key Sample.unavailable
           (mkEstimate "roof" (VNum 1200) 2.5 (VNum 0.25) 1.375 412.5
              "Smart Estimator used - AI analysis temporarily unavailable. Estimate based on typical property size for this service type."
              1 "smart")
           eq_refl).
Defined.

(** X9 at a quote of the model: the endpoint answered OK, nothing is logged. *)
Lemma method_follows_the_response_witness :
  exists r,
    Sample.answer (JStr Sample.quote_text) = Ok r
    /\ ok r = true
    /\ logged (snd (Sample.run (Sample.request (Sample.form "house"))
                      Sample.env_with_key (Sample.answer (JStr Sample.quote_text))))
       = [].
Proof.
  destruct (@method_follows_the_response Sample.runtime Sample.pricing
              (Sample.request (Sample.form "house")) Sample.env_with_key
              (Sample.answer (JStr Sample.quote_text))
              (mkEstimate "house" (VNum 1200) 3 (VNum 0.15) 1.5 270 "two stories" 1 "ai")
              eq_refl)
    as (r & Hr & [(_ & Hm & _) | (Hok & _ & Hlog)]).
  - discriminate Hm.
  - exists r. repeat split; assumption.
Defined.

(** X10 at a quote with the complexity 9 and the area -50: 5 and 0. *)
Lemma numeric_fields_are_bounded_witness :
  exists e,
    fst (Edge.run (Sample.request (Sample.form "roof")) Sample.env_with_key
           (Sample.answer (JStr Edge.steep_text)))
    = mkResponse 200 (EstimateBody e)
    /\ complexity e = 5%float
    /\ area_sqft e = VNum 0.
Proof.
  pose proof (@numeric_fields_are_bounded Edge.runtime Sample.pricing
                (Sample.request (Sample.form "roof")) Sample.env_with_key
                (Sample.answer (JStr Edge.steep_text))
                (mkFetchResponse true (Ok (Sample.envelope (JStr Edge.steep_text))))
                (Sample.envelope (JStr Edge.steep_text)) (VStr Edge.steep_text)
                [("area_sqft", JNum (-50)); ("complexity", JNum 9); ("notes", JStr "tower")]
                (mkEstimate "roof" (VNum 0) 5 (VNum 0.25) 2 99 "tower" 1 "ai")
                eq_refl eq_refl eq_refl eq_refl eq_refl eq_refl eq_refl) as [Hc Ha].
  eexists. split; [reflexivity|]. split.
  - exact (Hc 9%float eq_refl eq_refl eq_refl).
  - exact (Ha (-50)%float eq_refl eq_refl).
Defined.

(** X11 at a quote with the complexity 0 and nothing else. *)
Lemma falsy_fields_get_defaults_witness :
  exists e,
    fst (Edge.run (Sample.request (Sample.form "roof")) Sample.env_with_key
           (Sample.answer (JStr Edge.sparse_text)))
    = mkResponse 200 (EstimateBody e)
    /\ complexity e = 2.5%float
    /\ area_sqft e = VNum 0
    /\ notes e = "AI-computed from uploaded photos.".
Proof.
  pose proof (@falsy_fields_get_defaults Edge.runtime Sample.pricing
                (Sample.request (Sample.form "roof")) Sample.env_with_key
                (Sample.answer (JStr Edge.sparse_text))
                (mkFetchResponse true (Ok (Sample.envelope (JStr Edge.sparse_text))))
                (Sample.envelope (JStr Edge.sparse_text)) (VStr Edge.sparse_text)
                [("complexity", JNum 0)]
                (mkEstimate "roof" (VNum 0) 2.5 (VNum 0.25) 1.375 99
                   "AI-computed from uploaded photos." 1 "ai")
                eq_refl eq_refl eq_refl eq_refl eq_refl eq_refl eq_refl)
    as (_ & Ha & Hn & _ & Hc).
  eexists. split; [reflexivity|]. split; [|split].
  - exact (Hc eq_refl).
  - exact (Ha eq_refl).
  - exact (Hn eq_refl).
Defined.

(** X12 at the contents "null" and "7". *)
Lemma content_that_is_no_object_witness :
  fst (Edge.run (Sample.request (Sample.form "roof")) Sample.env_with_key
         (Sample.answer (JStr "null")))
  = mkResponse 500 (ErrorBody "Cannot read properties of null (reading 'area_sqft')")
  /\ exists e,
      fst (Edge.run (Sample.request (Sample.form "roof")) Sample.env_with_key
             (Sample.answer (JStr "7")))
      = mkResponse 200 (EstimateBody e)
      /\ area_sqft e = VNum 0
      /\ complexity e = 2.5%float
      /\ notes e = "AI-computed from uploaded photos."
      /\ estimation_method e = "ai".
Proof.
  assert (Himg : has_images (Sample.request (Sample.form "roof")) (Sample.form "roof"))
    by (repeat split; discriminate).
  assert (Hkey : configured Sample.env_with_key "sk-test")
    by (split; [reflexivity|discriminate]).
  split.
  - exact (proj1 (@content_that_is_no_object Edge.runtime Sample.pricing
                    _ _ (Sample.answer (JStr "null")) _ _
                    (mkFetchResponse true (Ok (Sample.envelope (JStr "null"))))
                    (Sample.envelope (JStr "null")) (VStr "null") JNull
                    Himg Hkey eq_refl eq_refl eq_refl eq_refl eq_refl eq_refl)
             eq_refl).
  - apply (proj2 (@content_that_is_no_object Edge.runtime Sample.pricing
                    _ _ (Sample.answer (JStr "7")) _ _
                    (mkFetchResponse true (Ok (Sample.envelope (JStr "7"))))
                    (Sample.envelope (JStr "7")) (VStr "7") (JNum 7)
                    Himg Hkey eq_refl eq_refl eq_refl eq_refl eq_refl eq_refl)).
    + discriminate.
    + intros props. discriminate.
Defined.

(** X13 at an OK response whose body is no JSON document. *)
Lemma unreadable_answer_is_500_witness :
  fst (Edge.run (Sample.request (Sample.form "roof")) Sample.env_with_key Edge.garbled)
  = mkResponse 500 (ErrorBody "Unexpected token < in JSON at position 0")
  /\ List.length (fetched (snd (Edge.run (Sample.request (Sample.form "roof"))
                                  Sample.env_with_key Edge.garbled))) = 1%nat
  /\ logged (snd (Edge.run (Sample.request (Sample.form "roof"))
                    Sample.env_with_key Edge.garbled)) = [].
Proof.
  assert (Himg : has_images (Sample.request (Sample.form "roof")) (Sample.form "roof"))
    by (repeat split; discriminate).
  assert (Hkey : configured Sample.env_with_key "sk-test")
    by (split; [reflexivity|discriminate]).
  exact (proj1 (@unreadable_answer_is_500 Edge.runtime Sample.pricing
                  _ _ Edge.garbled _ _
                  (mkFetchResponse true
                     (Err (mkExn "SyntaxError" "Unexpected token < in JSON at position 0")))
                  Himg Hkey eq_refl eq_refl)
           _ eq_refl).
Defined.

(** X14 at a quote of the model with no area: the total is the minimum fee;
    and at 1200 square feet of house: the total is the product. *)
Lemma total_has_a_floor_witness :
  (exists e,
      fst (Sample.run (Sample.request (Sample.form "roof")) Sample.env_with_key
             (Sample.answer (JStr "not json")))
      = mkResponse 200 (EstimateBody e)
      /\ total e = 99%float)
  /\ (exists e,
         fst (Sample.run (Sample.request (Sample.form "house")) Sample.env_with_key
                (Sample.answer (JStr Sample.quote_text)))
         = mkResponse 200 (EstimateBody e)
         /\ total e = 270%float).
Proof.
  split.
  - eexists. split; [reflexivity|].
    exact (proj1 (@total_has_a_floor Sample.runtime Sample.pricing
                    (Sample.request (Sample.form "roof")) Sample.env_with_key
                    (Sample.answer (JStr "not json"))
                    (mkEstimate "roof" (VNum 0) 2.5 (VNum 0.25) 1.375 99
                       "AI-computed from uploaded photos." 1 "ai")
                    0%float 0.25%float eq_refl eq_refl eq_refl)
             eq_refl).
  - eexists. split; [reflexivity|].
    exact (proj2 (@total_has_a_floor Sample.runtime Sample.pricing
                    (Sample.request (Sample.form "house")) Sample.env_with_key
                    (Sample.answer (JStr Sample.quote_text))
                    (mkEstimate "house" (VNum 1200) 3 (VNum 0.15) 1.5 270 "two stories" 1 "ai")
                    1200%float 0.15%float eq_refl eq_refl eq_refl)
             eq_refl).
Defined.

(** X16 at two files of the same type and bytes under different names. *)
Lemma data_urls_keep_the_bytes_witness :
  map file_bytes [Sample.photo]
  = map file_bytes [mkFile "again.jpg" "image/jpeg"
                      [Byte.xff; Byte.xd8; Byte.xff; Byte.xe0]].
Proof.
  exact (data_urls_keep_the_bytes [Sample.photo]
           [mkFile "again.jpg" "image/jpeg" [Byte.xff; Byte.xd8; Byte.xff; Byte.xe0]]
           eq_refl eq_refl).
Defined.

(** X17 at the fallback for the service "house": 1500 square feet at the
    rate 0.15 and the factor 1.375 are 309.375, and the total is 309.38. *)
Lemma rate_by_service_witness :
  exists e,
    fst (Sample.run (Sample.request (Sample.form "house")) Sample.env_with_key
           Sample.unavailable)
    = mkResponse 200 (EstimateBody e)
    /\ rate e = VNum 0.15
    /\ (1500 * 0.15 * 1.375)%float = 309.375%float
    /\ total e = 309.38%float
    /\ exists x a,
         rate e = VNum x
         /\ x = match own_property (SERVICE_RATES_PER_SQFT (Pricing := Sample.pricing))
                        (service e) with
                | Some y => y
                | None => 0.15%float
                end
         /\ js_Number (runtime := Sample.runtime) (area_sqft e) = Ok a
         /\ complexity_factor e
            = COMPLEXITY_MULTIPLIER (Pricing := Sample.pricing) (complexity e)
         /\ total e
            = (Num.Math_round
                 (Num.Math_max (MIN_JOB_FEE (Pricing := Sample.pricing))
                    (a * x * complexity_factor e) * 100)
               / 100)%float.
Proof.
  exists (mkEstimate "house" (VNum 1500) 2.5 (VNum 0.15) 1.375 309.38
            "Smart Estimator used - AI analysis temporarily unavailable. Estimate based on typical property size for this service type."
            1 "smart").
  split; [reflexivity|]. split; [reflexivity|]. split; [reflexivity|].
  split; [reflexivity|].
  apply (@rate_by_service Sample.runtime Sample.pricing
           (Sample.request (Sample.form "house")) Sample.env_with_key
           Sample.unavailable).
  - reflexivity.
  - cbn [service In Object_prototype_methods].
    intros H. repeat destruct H as [H|H]; try discriminate H. exact H.
Defined.
